(** * Vibes dashboard: compliance evaluation, insight generation and views

    A shallow embedding of [dashboard/models.py], [dashboard/signals.py] and
    the views of [dashboard/views.py] that read or write usage logs and
    insights, together with the properties checked against them.

    Conventions of the embedding.
    - A [datetime] is a number of microseconds since the epoch and a [date]
      a day number; [timezone.now()] is an explicit argument [now], and the
      readings of the clock taken while one [save] or one view runs are the
      same instant.
    - A table is the list of its rows in insertion order; a row carries its
      primary key ([None] until the row is inserted).
    - A foreign key is the primary key of the row it points to; following
      [self.policy] reads the policy table: an instance is one whose
      related policy is fetched when it is used, as after a query, not one
      that holds an earlier copy of the policy in memory.
    - [CharField]s with [choices] are strings: Django does not enforce the
      choices on [save]. *)

From Stdlib Require Import ZArith List String Bool Lia.
From Stdlib Require Import DecimalString.
From Stdlib Require Import Permutation Sorted.
Import ListNotations.

Open Scope string_scope.
Open Scope list_scope.
Open Scope Z_scope.

(** ** Time *)

Definition datetime := Z.
Definition date := Z.

Definition day_us : Z := 86400000000.

(** [dt.date()] *)
Definition date_of (t : datetime) : date := t / day_us.

(** [dt.replace(hour=0, minute=0, second=0, microsecond=0)] *)
Definition midnight (t : datetime) : datetime := t - t mod day_us.

(** [timedelta(days=n)] *)
Definition timedelta_days (n : Z) : Z := n * day_us.

(** [str(n)] and [f"{n}"] for an [int]. *)
Definition str_int (n : Z) : string := NilZero.string_of_int (Z.to_int n).

(** ** Rows of the tables *)

Module User.
Record t := mk {
  id : Z;
  username : string;
  email : string;
  first_name : string;
  last_name : string;
  date_joined : datetime
}.
End User.

Module UserProfile.
Record t := mk {
  user : Z;
  student_id : option string;
  department : string;
  enrollment_date : date;
  data_collection_consent : bool;
  consent_date : option datetime;
  allow_analytics : bool;
  email_notifications : bool;
  weekly_summary : bool
}.
End UserProfile.

Module AIEthicsPolicy.
Record t := mk {
  id : Z;
  title : string;
  version : string;
  status : string;
  max_daily_usage : Z;
  max_weekly_usage : Z;
  created_at : datetime;
  effective_from : date;
  effective_until : option date
}.

(** [AIEthicsPolicy.is_active]; [now] is [timezone.now()].  A [date] is
    always truthy, so [self.effective_until and ...] tests for [None]. *)
Definition is_active (self : t) (now : datetime) : bool :=
  let today := date_of now in
  if negb (String.eqb (status self) "active") then false
  else if today <? effective_from self then false
  else if match effective_until self with
          | Some until => until <? today
          | None => false
          end then false
  else true.
End AIEthicsPolicy.

Module AIUsageLog.
Record t := mk {
  id : option Z;
  user : Z;
  ai_tool : string;
  usage_type : string;
  description : string;
  course_code : string;
  assignment_id : string;
  duration_minutes : Z;
  tokens_used : Z;
  policy : option Z;
  is_compliant : bool;
  compliance_notes : string;
  timestamp : datetime;
  ip_address : option string;
  user_agent : string
}.

(** The two assignments [check_compliance] makes. *)
Definition set_is_compliant (self : t) (c : bool) : t :=
  mk (id self) (user self) (ai_tool self) (usage_type self)
     (description self) (course_code self) (assignment_id self)
     (duration_minutes self) (tokens_used self) (policy self)
     c (compliance_notes self) (timestamp self)
     (ip_address self) (user_agent self).

Definition set_compliance_notes (self : t) (notes : string) : t :=
  mk (id self) (user self) (ai_tool self) (usage_type self)
     (description self) (course_code self) (assignment_id self)
     (duration_minutes self) (tokens_used self) (policy self)
     (is_compliant self) notes (timestamp self)
     (ip_address self) (user_agent self).

(** What an INSERT fills in: the primary key and the [auto_now_add]
    timestamp. *)
Definition set_inserted (self : t) (pk : Z) (now : datetime) : t :=
  mk (Some pk) (user self) (ai_tool self) (usage_type self)
     (description self) (course_code self) (assignment_id self)
     (duration_minutes self) (tokens_used self) (policy self)
     (is_compliant self) (compliance_notes self) now
     (ip_address self) (user_agent self).
End AIUsageLog.

Module ComplianceStatus.
Record t := mk {
  user : Z;
  policy : Z;
  compliance_level : string;
  compliance_score : Z;
  total_usage_count : Z;
  compliant_usage_count : Z;
  violation_count : Z;
  period_start : date;
  period_end : date;
  notes : string
}.

Definition set_score_level (self : t) (score : Z) (level : string) : t :=
  mk (user self) (policy self) level score
     (total_usage_count self) (compliant_usage_count self)
     (violation_count self) (period_start self) (period_end self)
     (notes self).
End ComplianceStatus.

Module UserInsight.
Record t := mk {
  id : option Z;
  user : Z;
  insight_type : string;
  title : string;
  message : string;
  priority : string;
  is_read : bool;
  is_dismissed : bool;
  generated_at : datetime;
  expires_at : option datetime
}.

Definition set_is_read (self : t) (b : bool) : t :=
  mk (id self) (user self) (insight_type self) (title self) (message self)
     (priority self) b (is_dismissed self) (generated_at self)
     (expires_at self).

Definition set_is_dismissed (self : t) (b : bool) : t :=
  mk (id self) (user self) (insight_type self) (title self) (message self)
     (priority self) (is_read self) b (generated_at self)
     (expires_at self).
End UserInsight.

Module UserFeedback.
Record t := mk {
  id : option Z;
  user : Z;
  feedback_type : string;
  title : string;
  description : string;
  url : string;
  status : string;
  admin_response : string;
  submitted_at : datetime
}.
End UserFeedback.

(** ** The store *)

Record Database := mkDatabase {
  users : list User.t;
  profiles : list UserProfile.t;
  policies : list AIEthicsPolicy.t;
  usage_logs : list AIUsageLog.t;
  insights : list UserInsight.t;
  feedback : list UserFeedback.t
}.

Definition with_usage_logs (db : Database) (logs : list AIUsageLog.t) :=
  mkDatabase (users db) (profiles db) (policies db) logs (insights db)
             (feedback db).

Definition with_insights (db : Database) (ins : list UserInsight.t) :=
  mkDatabase (users db) (profiles db) (policies db) (usage_logs db) ins
             (feedback db).

Definition with_policies (db : Database) (ps : list AIEthicsPolicy.t) :=
  mkDatabase (users db) (profiles db) ps (usage_logs db) (insights db)
             (feedback db).

(** [len(qs)] / [qs.count()] *)
Definition count {A} (rows : list A) : Z := Z.of_nat (List.length rows).

(** The next value of an auto-increment primary key. *)
Definition next_pk (pks : list (option Z)) : Z :=
  1 + fold_right (fun pk m => match pk with
                              | Some k => Z.max k m
                              | None => m
                              end) 0 pks.

Definition has_pk (pk : Z) (row_pk : option Z) : bool :=
  match row_pk with
  | Some k => k =? pk
  | None => false
  end.

(** ** Queries on the usage-log table, with a trace

    [check_compliance] issues one or two COUNT queries.  To speak of the
    queries it does not issue, a computation of the evaluator returns its
    value together with the list of the queries it ran. *)

Inductive query :=
| CountLogsSince (user : Z) (since : datetime).

Definition Traced (A : Type) : Type := A * list query.

Definition ret {A} (a : A) : Traced A := (a, []).

Definition bind {A B} (m : Traced A) (k : A -> Traced B) : Traced B :=
  let (a, qs) := m in
  let (b, qs') := k a in
  (b, qs ++ qs').

Notation "x <- m ;; k" := (bind m (fun x => k))
  (at level 61, m at next level, right associativity).

(** [AIUsageLog.objects.filter(user=user, timestamp__gte=since)] *)
Definition logs_since (db : Database) (user : Z) (since : datetime)
  : list AIUsageLog.t :=
  filter (fun row => (AIUsageLog.user row =? user)
                     && (since <=? AIUsageLog.timestamp row))
         (usage_logs db).

(** [AIUsageLog.objects.filter(user=user)] *)
Definition logs_of (db : Database) (user : Z) : list AIUsageLog.t :=
  filter (fun row => AIUsageLog.user row =? user) (usage_logs db).

Definition count_logs_since (db : Database) (user : Z) (since : datetime)
  : Traced Z :=
  (count (logs_since db user since), [CountLogsSince user since]).

(** [self.policy]: the row of the policy table the foreign key points to,
    [None] when the key is null.  The policy is read from the table when
    the instance is used; an instance that keeps an earlier copy of the
    policy in memory is outside this embedding.  [on_delete=SET_NULL] keeps
    the key from dangling; a key without a row reads as [None]. *)
Definition policy_of (db : Database) (self : AIUsageLog.t)
  : option AIEthicsPolicy.t :=
  match AIUsageLog.policy self with
  | None => None
  | Some pk => find (fun p => AIEthicsPolicy.id p =? pk) (policies db)
  end.

(** ** Policy evaluator: [AIUsageLog.check_compliance] *)

Definition daily_note (p : AIEthicsPolicy.t) : string :=
  ("Exceeded daily usage limit of "
     ++ str_int (AIEthicsPolicy.max_daily_usage p))%string.

Definition weekly_note (p : AIEthicsPolicy.t) : string :=
  ("Exceeded weekly usage limit of "
     ++ str_int (AIEthicsPolicy.max_weekly_usage p))%string.

Definition within_note : string := "Usage within policy limits".

Definition verdict (self : AIUsageLog.t) (c : bool) (notes : string)
  : AIUsageLog.t :=
  AIUsageLog.set_compliance_notes (AIUsageLog.set_is_compliant self c) notes.

Definition check_compliance (db : Database) (now : datetime)
    (self : AIUsageLog.t) : Traced AIUsageLog.t :=
  match policy_of db self with
  | None => ret (AIUsageLog.set_is_compliant self true)
  | Some p =>
    if negb (AIEthicsPolicy.is_active p now)
    then ret (AIUsageLog.set_is_compliant self true)
    else
      let today_start := midnight now in
      daily_count <- count_logs_since db (AIUsageLog.user self) today_start ;;
      if AIEthicsPolicy.max_daily_usage p <=? daily_count
      then ret (verdict self false (daily_note p))
      else
        let week_start := now - timedelta_days 7 in
        weekly_count <- count_logs_since db (AIUsageLog.user self) week_start ;;
        if AIEthicsPolicy.max_weekly_usage p <=? weekly_count
        then ret (verdict self false (weekly_note p))
        else ret (verdict self true within_note)
  end.

(** ** Insight generator: [signals.generate_usage_insights] *)

Definition milestones : list Z := [10; 50; 100; 250; 500; 1000].

(** [UserInsight.objects.create(user=..., insight_type=..., title=...,
    message=..., priority=...)]: the other fields take their defaults and
    [generated_at] is [auto_now_add]. *)
Definition new_insight (pk : Z) (now : datetime) (user : Z)
    (insight_type title message priority : string) : UserInsight.t :=
  UserInsight.mk (Some pk) user insight_type title message priority
                 false false now None.

Definition create_insight (db : Database) (now : datetime) (user : Z)
    (insight_type title message priority : string) : Database :=
  let pk := next_pk (map UserInsight.id (insights db)) in
  with_insights db
    (insights db ++
     [new_insight pk now user insight_type title message priority]).

(** [UserInsight.objects.filter(user=user, insight_type='warning',
    generated_at__gte=today_start).exists()] *)
Definition warning_since (user : Z) (since : datetime) (i : UserInsight.t)
  : bool :=
  (UserInsight.user i =? user)
  && String.eqb (UserInsight.insight_type i) "warning"
  && (since <=? UserInsight.generated_at i).

Definition warning_exists (db : Database) (user : Z) (since : datetime)
  : bool :=
  existsb (warning_since user since) (insights db).

Definition warning_message (today_usage : Z) : string :=
  ("You have logged " ++ str_int today_usage
     ++ " AI interactions today. Consider taking breaks and reflecting on your learning process.")%string.

Definition milestone_title (total_usage : Z) : string :=
  ("Milestone: " ++ str_int total_usage ++ " AI Interactions!")%string.

Definition milestone_message (total_usage : Z) : string :=
  ("Congratulations! You have logged " ++ str_int total_usage
     ++ " AI interactions. Keep learning responsibly!")%string.

(** [total_usage in milestones] *)
Definition is_milestone (n : Z) : bool := existsb (Z.eqb n) milestones.

Definition generate_usage_insights (db : Database) (now : datetime)
    (instance : AIUsageLog.t) (created : bool) : Database :=
  if negb created then db
  else
    let user := AIUsageLog.user instance in
    let today_start := midnight now in
    let today_usage := count (logs_since db user today_start) in
    let db1 :=
      if (50 <=? today_usage) && negb (warning_exists db user today_start)
      then create_insight db now user "warning" "High AI Usage Today"
                          (warning_message today_usage) "high"
      else db in
    let total_usage := count (logs_of db1 user) in
    if is_milestone total_usage
    then create_insight db1 now user "achievement"
                        (milestone_title total_usage)
                        (milestone_message total_usage) "medium"
    else db1.

(** ** Saving a usage log *)

(** [models.Model.save] on the usage-log table, before the [post_save]
    signal: an UPDATE of the row with the instance's primary key when there
    is one, an INSERT otherwise.  Returns the store, the instance as it is
    after the call and the signal's [created] flag.  A row holds the
    values of the instance's attributes; what [GenericIPAddressField] does
    to [ip_address] on its way to the column (an empty text becomes NULL,
    an IPv6 address is rewritten in its short form) is not part of the
    embedding, and no statement is made about the stored address. *)
Definition Model_save (db : Database) (now : datetime) (self : AIUsageLog.t)
  : Database * AIUsageLog.t * bool :=
  let insert pk :=
    let row := AIUsageLog.set_inserted self pk now in
    (with_usage_logs db (usage_logs db ++ [row]), row, true) in
  match AIUsageLog.id self with
  | Some pk =>
    if existsb (fun row => has_pk pk (AIUsageLog.id row)) (usage_logs db)
    then (with_usage_logs db
            (map (fun row => if has_pk pk (AIUsageLog.id row)
                             then self else row)
                 (usage_logs db)),
          self, false)
    else insert pk
  | None => insert (next_pk (map AIUsageLog.id (usage_logs db)))
  end.

(** The first two lines of [AIUsageLog.save]:
    [if self.policy: self.check_compliance()]. *)
Definition evaluated (db : Database) (now : datetime) (self : AIUsageLog.t)
  : AIUsageLog.t :=
  match policy_of db self with
  | Some _ => fst (check_compliance db now self)
  | None => self
  end.

(** [AIUsageLog.save]: the compliance check when [self.policy] is set, the
    write, then the [post_save] receiver. *)
Definition save (db : Database) (now : datetime) (self : AIUsageLog.t)
  : Database * AIUsageLog.t :=
  let self1 := evaluated db now self in
  let '(db1, self2, created) := Model_save db now self1 in
  (generate_usage_insights db1 now self2 created, self2).

(** A fresh instance, as the model's constructor builds it from the fields
    a caller gives: no primary key, [is_compliant=True], no notes. *)
Definition new_log (user : Z) (ai_tool usage_type description : string)
    (policy : option Z) : AIUsageLog.t :=
  AIUsageLog.mk None user ai_tool usage_type description "" "" 0 0 policy
                true "" 0 None "".

(** The instance the model's constructor builds: it has no primary key
    yet. *)
Definition unsaved (self : AIUsageLog.t) : AIUsageLog.t :=
  AIUsageLog.mk None (AIUsageLog.user self) (AIUsageLog.ai_tool self)
    (AIUsageLog.usage_type self) (AIUsageLog.description self)
    (AIUsageLog.course_code self) (AIUsageLog.assignment_id self)
    (AIUsageLog.duration_minutes self) (AIUsageLog.tokens_used self)
    (AIUsageLog.policy self) (AIUsageLog.is_compliant self)
    (AIUsageLog.compliance_notes self) (AIUsageLog.timestamp self)
    (AIUsageLog.ip_address self) (AIUsageLog.user_agent self).

(** [AIUsageLog.objects.create(...)] *)
Definition create (db : Database) (now : datetime) (self : AIUsageLog.t)
  : Database * AIUsageLog.t :=
  save db now (unsaved self).

(** [AIEthicsPolicy.save] of an existing policy: the row is replaced. *)
Definition save_policy (db : Database) (p : AIEthicsPolicy.t) : Database :=
  with_policies db
    (map (fun row => if AIEthicsPolicy.id row =? AIEthicsPolicy.id p
                     then p else row)
         (policies db)).

(** ** Compliance aggregator: [ComplianceStatus.calculate_score]

    The score is [int((compliant / total) * 100)].  In Python [a / b] on
    two [int]s is the binary64 number nearest to the exact quotient (ties
    to even), whatever the size of the operands; [x * 100] is the binary64
    number nearest to the exact product; [int(x)] truncates toward zero.
    A finite binary64 number is written [m * 2 ^ e] with [0 <= m <= 2 ^ 53]
    and [-1074 <= e <= 971]. *)

(** The integer nearest to [n / d], ties to the even one; [0 <= n],
    [0 < d]. *)
Definition div_nearest_even (n d : Z) : Z :=
  let q := n / d in
  let r := n mod d in
  if 2 * r <? d then q
  else if d <? 2 * r then q + 1
  else if Z.even q then q else q + 1.

(** The binary64 number nearest to [n / d], as mantissa and exponent;
    [0 <= n], [0 < d].  The exponent is the one that leaves 53 bits in the
    mantissa, and never below that of the subnormal numbers.  [None] when
    the result is beyond the largest finite number. *)
Definition round64 (n d : Z) : option (Z * Z) :=
  if n =? 0 then Some (0, 0)
  else
    let k := Z.log2 n - Z.log2 d in
    let l := if d * 2 ^ Z.max 0 k <=? n * 2 ^ Z.max 0 (- k)
             then k else k - 1 in
    let e := Z.max (-1074) (l - 52) in
    let m := div_nearest_even (n * 2 ^ Z.max 0 (- e)) (d * 2 ^ Z.max 0 e) in
    if (971 <? e) || ((e =? 971) && (2 ^ 53 <=? m)) then None
    else Some (m, e).

(** [int((compliant / total) * 100)].  [None] stands for an exception:
    the [ZeroDivisionError] of [total = 0], the [OverflowError] of a
    quotient too large for a float, or that of [int] on the infinite
    product. *)
Definition percentage (compliant total : Z) : option Z :=
  if total =? 0 then None
  else
    match round64 (Z.abs compliant) (Z.abs total) with
    | None => None
    | Some (m, e) =>
      match round64 (100 * m * 2 ^ Z.max 0 e) (2 ^ Z.max 0 (- e)) with
      | None => None
      | Some (m', e') =>
        Some (Z.sgn compliant * Z.sgn total
              * (m' * 2 ^ Z.max 0 e' / 2 ^ Z.max 0 (- e')))
      end
    end.

(** The chain of comparisons that sets [compliance_level]. *)
Definition level_of_score (score : Z) : string :=
  if 90 <=? score then "excellent"
  else if 75 <=? score then "good"
  else if 50 <=? score then "warning"
  else "violation".

(** [calculate_score]: the instance with the two fields assigned, which the
    final [self.save()] writes; [None] when [int] raises. *)
Definition calculate_score (self : ComplianceStatus.t)
  : option ComplianceStatus.t :=
  let score :=
    if ComplianceStatus.total_usage_count self =? 0
    then Some 100
    else percentage (ComplianceStatus.compliant_usage_count self)
                    (ComplianceStatus.total_usage_count self) in
  match score with
  | Some s => Some (ComplianceStatus.set_score_level self s (level_of_score s))
  | None => None
  end.

(** ** Ordering

    [order_by] and the default ordering of a model: an insertion sort;
    [before a b] says that [a] may come before [b]. *)
Fixpoint insert_by {A} (before : A -> A -> bool) (a : A) (l : list A)
  : list A :=
  match l with
  | [] => [a]
  | b :: l' => if before a b then a :: l else b :: insert_by before a l'
  end.

Definition sort_by {A} (before : A -> A -> bool) (l : list A) : list A :=
  fold_right (insert_by before) [] l.

(** [order_by('-timestamp')] *)
Definition newest_first (a b : AIUsageLog.t) : bool :=
  AIUsageLog.timestamp b <=? AIUsageLog.timestamp a.

(** The default ordering of [UserFeedback]: ['-submitted_at']. *)
Definition newest_feedback_first (a b : UserFeedback.t) : bool :=
  UserFeedback.submitted_at b <=? UserFeedback.submitted_at a.

(** ** Views *)

(** [order_by('-priority', '-generated_at')]: [a] may come before [b]. *)
Definition precedes (a b : UserInsight.t) : bool :=
  match String.compare (UserInsight.priority a) (UserInsight.priority b) with
  | Gt => true
  | Lt => false
  | Eq => UserInsight.generated_at b <=? UserInsight.generated_at a
  end.

Fixpoint insert_ordered (a : UserInsight.t) (l : list UserInsight.t)
  : list UserInsight.t :=
  match l with
  | [] => [a]
  | b :: l' => if precedes a b then a :: l else b :: insert_ordered a l'
  end.

Definition order_by (l : list UserInsight.t) : list UserInsight.t :=
  fold_right insert_ordered [] l.

(** [UserInsight.objects.filter(user=request.user, is_dismissed=False)
    .order_by('-priority', '-generated_at')] *)
Definition insights_listing (db : Database) (request_user : Z)
  : list UserInsight.t :=
  order_by
    (filter (fun i => (UserInsight.user i =? request_user)
                      && negb (UserInsight.is_dismissed i))
            (insights db)).

(** [insights.filter(is_read=False).update(is_read=True)] *)
Definition mark_listed_read (db : Database) (request_user : Z) : Database :=
  with_insights db
    (map (fun i => if (UserInsight.user i =? request_user)
                      && negb (UserInsight.is_dismissed i)
                      && negb (UserInsight.is_read i)
                   then UserInsight.set_is_read i true
                   else i)
         (insights db)).

(** [insights_view]: the store after the request and the rows the template
    renders; the queryset is lazy, so it is read after the update. *)
Definition insights_view (db : Database) (request_user : Z)
  : Database * list UserInsight.t :=
  let db' := mark_listed_read db request_user in
  (db', insights_listing db' request_user).

Inductive response :=
| Http404
| HttpResponseRedirect (to : string).

(** [get_object_or_404(UserInsight, id=insight_id, user=request.user)] *)
Definition get_insight (db : Database) (insight_id request_user : Z)
  : option UserInsight.t :=
  find (fun i => has_pk insight_id (UserInsight.id i)
                 && (UserInsight.user i =? request_user))
       (insights db).

(** [insight.save()] of a stored insight. *)
Definition save_insight (db : Database) (pk : Z) (self : UserInsight.t)
  : Database :=
  with_insights db
    (map (fun row => if has_pk pk (UserInsight.id row) then self else row)
         (insights db)).

Definition dismiss_insight_view (db : Database) (request_user insight_id : Z)
  : Database * response :=
  match get_insight db insight_id request_user with
  | None => (db, Http404)
  | Some insight =>
    (save_insight db insight_id (UserInsight.set_is_dismissed insight true),
     HttpResponseRedirect "dashboard:insights")
  end.

(** *** Data export *)

#[local] Set Warnings "-register-all".
Inductive json :=
| JNull
| JBool (b : bool)
| JInt (n : Z)
| JStr (s : string)
| JList (items : list json)
| JDict (entries : list (string * json)).
#[local] Set Warnings "register-all".

Section DataExport.

(** [date.isoformat()], [datetime.isoformat()] and [str(datetime)], the last
    one applied by [json.dumps(..., default=str)]. *)
Variable isoformat_date : date -> string.
Variable isoformat : datetime -> string.
Variable str_datetime : datetime -> string.

Definition opt_str (s : option string) : json :=
  match s with
  | Some s => JStr s
  | None => JNull
  end.

(** [.values('ai_tool', 'usage_type', 'description', 'course_code',
    'duration_minutes', 'tokens_used', 'is_compliant', 'timestamp')] *)
Definition log_values (row : AIUsageLog.t) : json :=
  JDict [("ai_tool", JStr (AIUsageLog.ai_tool row));
         ("usage_type", JStr (AIUsageLog.usage_type row));
         ("description", JStr (AIUsageLog.description row));
         ("course_code", JStr (AIUsageLog.course_code row));
         ("duration_minutes", JInt (AIUsageLog.duration_minutes row));
         ("tokens_used", JInt (AIUsageLog.tokens_used row));
         ("is_compliant", JBool (AIUsageLog.is_compliant row));
         ("timestamp", JStr (str_datetime (AIUsageLog.timestamp row)))].

Definition insight_values (row : UserInsight.t) : json :=
  JDict [("insight_type", JStr (UserInsight.insight_type row));
         ("title", JStr (UserInsight.title row));
         ("message", JStr (UserInsight.message row));
         ("priority", JStr (UserInsight.priority row));
         ("generated_at", JStr (str_datetime (UserInsight.generated_at row)))].

Definition feedback_values (row : UserFeedback.t) : json :=
  JDict [("feedback_type", JStr (UserFeedback.feedback_type row));
         ("title", JStr (UserFeedback.title row));
         ("description", JStr (UserFeedback.description row));
         ("status", JStr (UserFeedback.status row));
         ("submitted_at", JStr (str_datetime (UserFeedback.submitted_at row)))].

Definition user_fields (user : User.t) : json :=
  JDict [("username", JStr (User.username user));
         ("email", JStr (User.email user));
         ("first_name", JStr (User.first_name user));
         ("last_name", JStr (User.last_name user));
         ("date_joined", JStr (isoformat (User.date_joined user)))].

Definition profile_fields (profile : UserProfile.t) : json :=
  JDict [("student_id", opt_str (UserProfile.student_id profile));
         ("department", JStr (UserProfile.department profile));
         ("enrollment_date",
          JStr (isoformat_date (UserProfile.enrollment_date profile)));
         ("data_collection_consent",
          JBool (UserProfile.data_collection_consent profile));
         ("consent_date",
          opt_str (option_map isoformat (UserProfile.consent_date profile)))].

(** [user.profile]: the one-to-one row, [None] when the user has none (the
    attribute access raises). *)
Definition profile_of (db : Database) (user : User.t)
  : option UserProfile.t :=
  find (fun p => UserProfile.user p =? User.id user) (profiles db).

Definition insights_of (db : Database) (user : Z) : list UserInsight.t :=
  filter (fun row => UserInsight.user row =? user) (insights db).

Definition feedback_of (db : Database) (user : Z) : list UserFeedback.t :=
  filter (fun row => UserFeedback.user row =? user) (feedback db).

(** [export_data_view]: the object [json.dumps] serialises; [None] when
    [user.profile] raises.  The three querysets come in the default
    ordering of their models: ['-timestamp'], ['-priority',
    '-generated_at'] and ['-submitted_at']. *)
Definition export_data_view (db : Database) (user : User.t) : option json :=
  match profile_of db user with
  | None => None
  | Some profile =>
    Some (JDict
      [("user", user_fields user);
       ("profile", profile_fields profile);
       ("usage_logs",
        JList (map log_values
                 (sort_by newest_first (logs_of db (User.id user)))));
       ("insights",
        JList (map insight_values
                 (order_by (insights_of db (User.id user)))));
       ("feedback",
        JList (map feedback_values
                 (sort_by newest_feedback_first
                    (feedback_of db (User.id user)))))])
  end.

End DataExport.

(** ** Vocabulary of the statements *)

(** The policy an event is evaluated against: the one it refers to, when
    that policy is active at [now]. *)
Definition active_policy (db : Database) (now : datetime)
    (self : AIUsageLog.t) : option AIEthicsPolicy.t :=
  match policy_of db self with
  | Some p => if AIEthicsPolicy.is_active p now then Some p else None
  | None => None
  end.

(** What the claims count is written out here on the tables themselves,
    apart from the queries of the code. *)

(** The first instant of the day of [now], a day being 86400000000
    microseconds. *)
Definition start_of_day (now : datetime) : datetime :=
  86400000000 * (now / 86400000000).

(** The stored events of [user] with a timestamp at or after [since], and
    all the stored events of [user]. *)
Definition events_since (db : Database) (user : Z) (since : datetime)
  : list AIUsageLog.t :=
  filter (fun row => (AIUsageLog.user row =? user)
                     && (since <=? AIUsageLog.timestamp row))
         (usage_logs db).

Definition events_of (db : Database) (user : Z) : list AIUsageLog.t :=
  filter (fun row => AIUsageLog.user row =? user) (usage_logs db).

(** The number of events of [user] since midnight, over the trailing seven
    days (604800000000 microseconds), and in all. *)
Definition daily_count (db : Database) (user : Z) (now : datetime) : Z :=
  Z.of_nat (List.length (events_since db user (start_of_day now))).

Definition weekly_count (db : Database) (user : Z) (now : datetime) : Z :=
  Z.of_nat (List.length (events_since db user (now - 604800000000))).

Definition all_time_count (db : Database) (user : Z) : Z :=
  Z.of_nat (List.length (events_of db user)).

(** Two instances that differ at most in the verdict fields. *)
Definition same_but_verdict (a b : AIUsageLog.t) : Prop :=
  verdict a (AIUsageLog.is_compliant b) (AIUsageLog.compliance_notes b) = b.

(** [s] occurs in [t]. *)
Definition contains (s t : string) : Prop :=
  exists pre post, t = (pre ++ s ++ post)%string.

Definition is_warning (i : UserInsight.t) : bool :=
  String.eqb (UserInsight.insight_type i) "warning".

Definition is_achievement (i : UserInsight.t) : bool :=
  String.eqb (UserInsight.insight_type i) "achievement".

(** The stored insights of type warning that belong to [user] and were
    generated at or after [since]. *)
Definition warnings_since (db : Database) (user : Z) (since : datetime)
  : list UserInsight.t :=
  filter (fun i => (UserInsight.user i =? user)
                   && is_warning i
                   && (since <=? UserInsight.generated_at i))
         (insights db).

(** A sequence of creations, each at its own time. *)
Fixpoint create_all (db : Database)
    (events : list (datetime * AIUsageLog.t)) : Database :=
  match events with
  | [] => db
  | (now, self) :: rest => create_all (fst (create db now self)) rest
  end.

(** The requests that write the tables of this development. *)
Inductive request :=
| LogUsage (now : datetime) (self : AIUsageLog.t)
| SaveLog (now : datetime) (self : AIUsageLog.t)
| ViewInsights (user : Z)
| DismissInsight (user insight_id : Z)
| SavePolicy (p : AIEthicsPolicy.t).

Definition handle (db : Database) (r : request) : Database :=
  match r with
  | LogUsage now self => fst (create db now self)
  | SaveLog now self => fst (save db now self)
  | ViewInsights user => fst (insights_view db user)
  | DismissInsight user insight_id =>
    fst (dismiss_insight_view db user insight_id)
  | SavePolicy p => save_policy db p
  end.

Definition handle_all (db : Database) (rs : list request) : Database :=
  fold_left handle rs db.

(** [n] is an integer nearest to [100 * compliant / total], whatever the
    rule for ties. *)
Definition nearest_percentage (n compliant total : Z) : Prop :=
  2 * Z.abs (100 * compliant - n * total) <= Z.abs total.

(** The sentence C1 makes about an event with no active policy, as a
    proposition: after the check it is compliant and has no notes. *)
Definition no_policy_no_notes : Prop :=
  forall db now self,
    active_policy db now self = None ->
    AIUsageLog.is_compliant (fst (check_compliance db now self)) = true
    /\ AIUsageLog.compliance_notes (fst (check_compliance db now self)) = "".

(** The sentence C5 makes about [is_active], as a proposition: the
    effective range is half-open, the day [effective_until] lies outside. *)
Definition active_on_half_open_range : Prop :=
  forall self now,
    AIEthicsPolicy.is_active self now = true <->
    AIEthicsPolicy.status self = "active"
    /\ AIEthicsPolicy.effective_from self <= now / 86400000000
    /\ (AIEthicsPolicy.effective_until self = None
        \/ exists until, AIEthicsPolicy.effective_until self = Some until
                         /\ now / 86400000000 < until).

(** The sentence C3 makes about [save], as a proposition: saving a stored
    log leaves its verdict as it was. *)
Definition verdict_computed_once : Prop :=
  forall db now row,
    In row (usage_logs db) ->
    AIUsageLog.is_compliant (snd (save db now row))
    = AIUsageLog.is_compliant row
    /\ AIUsageLog.compliance_notes (snd (save db now row))
       = AIUsageLog.compliance_notes row.

(** The sentence C4 makes about the score when [total <> 0], as a
    proposition: the score is the percentage rounded to an integer. *)
Definition score_is_rounded : Prop :=
  forall self self',
    calculate_score self = Some self' ->
    ComplianceStatus.total_usage_count self <> 0 ->
    nearest_percentage (ComplianceStatus.compliance_score self')
                       (ComplianceStatus.compliant_usage_count self)
                       (ComplianceStatus.total_usage_count self).

(** For a fixed primary key: some insight has it, and every insight that
    has it is dismissed. *)
Definition dismissed_for_good (pk : Z) (db : Database) : Prop :=
  (exists row, In row (insights db) /\ has_pk pk (UserInsight.id row) = true)
  /\ (forall row, In row (insights db) ->
       has_pk pk (UserInsight.id row) = true ->
       UserInsight.is_dismissed row = true).

(** ** Sample data

    The fixture of [tests.py]: one active policy with [max_daily_usage=5]
    and [max_weekly_usage=20], in effect from day 19000, and a user (7)
    who logs events from 01:00 on that day, one microsecond apart. *)

Definition test_policy : AIEthicsPolicy.t :=
  AIEthicsPolicy.mk 1 "Test Policy" "1.0" "active" 5 20 0 19000 None.

Definition db0 : Database := mkDatabase [] [] [test_policy] [] [] [].

Definition t0 : datetime := 19000 * day_us + 3600000000.

Definition test_log (user : Z) : AIUsageLog.t :=
  new_log user "chatgpt" "code_generation" "Log" (Some 1).

(** [n] events of [user], at [t], [t + 1], ... *)
Fixpoint events_from (user : Z) (t : datetime) (n : nat)
  : list (datetime * AIUsageLog.t) :=
  match n with
  | O => []
  | S n' => (t, test_log user) :: events_from user (t + 1) n'
  end.

Definition db5 : Database := create_all db0 (events_from 7 t0 5).

(** The first event of user 7, then the policy edited down to one event
    per day. *)
Definition db1 : Database := fst (create db0 t0 (test_log 7)).

Definition row1 : AIUsageLog.t := snd (create db0 t0 (test_log 7)).

Definition strict_policy : AIEthicsPolicy.t :=
  AIEthicsPolicy.mk 1 "Test Policy" "1.1" "active" 1 20 0 19000 None.

Definition db2 : Database := save_policy db1 strict_policy.

(** A period with two compliant events out of three. *)
Definition two_of_three : ComplianceStatus.t :=
  ComplianceStatus.mk 7 1 "" 0 3 2 1 19000 19007 "".

Definition no_usage : ComplianceStatus.t :=
  ComplianceStatus.mk 7 1 "" 0 0 0 0 19000 19007 "".

(** Two users over two days: user 7 logs twice on the eve and five times
    on the day, user 8 three times on the eve and four times on the day. *)
Definition db_mixed : Database :=
  create_all db0
    (events_from 7 (t0 - day_us) 2 ++ events_from 8 (t0 - day_us + 10) 3
     ++ events_from 8 t0 4 ++ events_from 7 (t0 + 10) 5).

(** Two more events of user 7 on that day: nine in all, beside the seven
    of user 8. *)
Definition db_mixed9 : Database :=
  create_all db_mixed (events_from 7 (t0 + 20) 2).

(** A busy day of two users: fifty-two events of user 8, then as many of
    user 7. *)
Definition db_busy8 : Database := create_all db0 (events_from 8 t0 52).

Definition db_busy : Database :=
  create_all db_busy8 (events_from 7 (t0 + 100) 52).

(** The policy of the fixture, archived; and an event that was found over
    the daily limit while the policy was active. *)
Definition archived_policy : AIEthicsPolicy.t :=
  AIEthicsPolicy.mk 1 "Test Policy" "1.0" "archived" 5 20 0 19000 None.

Definition db_archived : Database :=
  mkDatabase [] [] [archived_policy] [] [] [].

Definition flagged_log : AIUsageLog.t :=
  verdict (test_log 7) false (daily_note test_policy).

(** A policy whose last day is day 19000. *)
Definition ending_policy : AIEthicsPolicy.t :=
  AIEthicsPolicy.mk 2 "Ending Policy" "1.0" "active" 5 20 0 18990 (Some 19000).

(** A busy day: sixty events of user 7. *)
Definition db60 : Database := create_all db0 (events_from 7 t0 60).

(** Two users, 7 and 8, each with an unread warning insight. *)
Definition insight_a : UserInsight.t :=
  UserInsight.mk (Some 1) 7 "warning" "High AI Usage Today" "" "high"
                 false false t0 None.

Definition insight_b : UserInsight.t :=
  UserInsight.mk (Some 2) 8 "warning" "High AI Usage Today" "" "high"
                 false false t0 None.

Definition db_ab : Database :=
  mkDatabase [] [] [test_policy] [] [insight_a; insight_b] [].

(** Two users with a profile, a usage log, an insight and a feedback
    each. *)
Definition alice : User.t :=
  User.mk 7 "alice" "alice@example.com" "Alice" "A" t0.

Definition bob : User.t :=
  User.mk 8 "bob" "bob@example.com" "Bob" "B" t0.

Definition db_export : Database :=
  mkDatabase
    [alice; bob]
    [UserProfile.mk 7 (Some "s-007") "CS" 19000 true (Some t0) true true true;
     UserProfile.mk 8 None "Math" 19000 false None true true true]
    [test_policy]
    [AIUsageLog.set_inserted (test_log 7) 1 t0;
     AIUsageLog.set_inserted (test_log 8) 2 t0]
    [insight_a; insight_b]
    [UserFeedback.mk (Some 1) 7 "bug" "Crash" "It crashed" "" "new" "" t0;
     UserFeedback.mk (Some 2) 8 "general" "Nice" "Thanks" "" "new" "" t0].

(** The same store without anything of user 8. *)
Definition db_export_alone : Database :=
  mkDatabase
    [alice]
    [UserProfile.mk 7 (Some "s-007") "CS" 19000 true (Some t0) true true true]
    [test_policy]
    [AIUsageLog.set_inserted (test_log 7) 1 t0]
    [insight_a]
    [UserFeedback.mk (Some 1) 7 "bug" "Crash" "It crashed" "" "new" "" t0].

(** ** The active policy, as the views look it up

    [AIEthicsPolicy.objects.filter(status='active',
    effective_from__lte=today).filter(Q(effective_until__gte=today) |
    Q(effective_until__isnull=True)).first()], with [today] the date of
    [timezone.now()].  The model's default ordering is ['-created_at'], so
    [first()] is a matching row with the latest [created_at]; among rows
    created at the same instant the database is free to choose. *)

Definition policy_in_effect (today : date) (p : AIEthicsPolicy.t) : bool :=
  String.eqb (AIEthicsPolicy.status p) "active"
  && (AIEthicsPolicy.effective_from p <=? today)
  && match AIEthicsPolicy.effective_until p with
     | Some until => today <=? until
     | None => true
     end.

Definition active_policies (db : Database) (now : datetime)
  : list AIEthicsPolicy.t :=
  filter (policy_in_effect (date_of now)) (policies db).

Definition newest_policy_first (a b : AIEthicsPolicy.t) : bool :=
  AIEthicsPolicy.created_at b <=? AIEthicsPolicy.created_at a.

Definition first_active_policy (db : Database) (now : datetime)
  : option AIEthicsPolicy.t :=
  hd_error (sort_by newest_policy_first (active_policies db now)).

(** A period in which every event was compliant. *)
Definition all_compliant : ComplianceStatus.t :=
  ComplianceStatus.mk 7 1 "violation" 12 4 4 0 19000 19007 "".

(** The shape of what the receiver may add. *)
Definition generated_for (db : Database) (now : datetime) (user : Z)
    (i : UserInsight.t) : Prop :=
  UserInsight.user i = user
  /\ UserInsight.is_read i = false
  /\ UserInsight.is_dismissed i = false
  /\ UserInsight.generated_at i = now
  /\ (UserInsight.insight_type i = "warning"
      \/ UserInsight.insight_type i = "achievement")
  /\ forall old, In old (insights db) -> UserInsight.id old <> UserInsight.id i.

(** ** [log_usage_view] *)

(** The cleaned data of an [AIUsageLogForm]. *)
Module AIUsageLogForm.
Record t := mk {
  ai_tool : string;
  usage_type : string;
  description : string;
  course_code : string;
  assignment_id : string;
  duration_minutes : Z;
  tokens_used : Z
}.
End AIUsageLogForm.

(** The entries of [request.META] the view reads. *)
Record META := mkMETA {
  HTTP_X_FORWARDED_FOR : option string;
  REMOTE_ADDR : option string;
  HTTP_USER_AGENT : option string
}.

Inductive method :=
| GET
| POST (data : AIUsageLogForm.t).

Inductive page :=
| Render (template : string)
| Redirect (to : string).

Definition comma : Ascii.ascii := Ascii.Ascii false false true true false true false false.

(** [s.split(',')[0]] *)
Fixpoint before_comma (s : string) : string :=
  match s with
  | EmptyString => EmptyString
  | String c rest =>
    if Ascii.eqb c comma then EmptyString else String c (before_comma rest)
  end.

(** The address the view stores: the first entry of a non-empty
    [X-Forwarded-For] header, [REMOTE_ADDR] otherwise. *)
Definition client_ip (meta : META) : option string :=
  match HTTP_X_FORWARDED_FOR meta with
  | Some EmptyString => REMOTE_ADDR meta
  | Some x_forwarded_for => Some (before_comma x_forwarded_for)
  | None => REMOTE_ADDR meta
  end.

(** [request.META.get('HTTP_USER_AGENT', '')[:500]] *)
Definition client_user_agent (meta : META) : string :=
  substring 0 500
    (match HTTP_USER_AGENT meta with
     | Some s => s
     | None => ""
     end).

(** The instance the view saves: [form.save(commit=False)] with the user,
    the active policy if there is one, the address and the user agent
    assigned. *)
Definition usage_log_of_request (db : Database) (now : datetime)
    (request_user : Z) (meta : META) (data : AIUsageLogForm.t)
  : AIUsageLog.t :=
  AIUsageLog.mk None request_user
    (AIUsageLogForm.ai_tool data) (AIUsageLogForm.usage_type data)
    (AIUsageLogForm.description data) (AIUsageLogForm.course_code data)
    (AIUsageLogForm.assignment_id data)
    (AIUsageLogForm.duration_minutes data) (AIUsageLogForm.tokens_used data)
    (option_map AIEthicsPolicy.id (first_active_policy db now))
    true "" 0 (client_ip meta) (client_user_agent meta).

Section LogUsage.

(** [form.is_valid()], Django's validation of the form. *)
Variable is_valid : AIUsageLogForm.t -> bool.

Definition log_usage_view (db : Database) (now : datetime)
    (request_user : Z) (meta : META) (request_method : method)
  : Database * page :=
  match request_method with
  | POST data =>
    if is_valid data
    then (fst (save db now (usage_log_of_request db now request_user meta data)),
          Redirect "dashboard:dashboard")
    else (db, Render "dashboard/log_usage.html")
  | GET => (db, Render "dashboard/log_usage.html")
  end.

End LogUsage.

(** A request behind two proxies, and a form. *)
Definition proxied : META :=
  mkMETA (Some "203.0.113.7, 10.0.0.1") (Some "10.0.0.1") (Some "Mozilla/5.0").

Definition sample_form : AIUsageLogForm.t :=
  AIUsageLogForm.mk "claude" "debugging" "A stack trace" "CS101" "A3" 20 0.

(** ** [dashboard_view]

    The entries of the context the view renders, one definition each. *)

(** [AIUsageLog.objects.filter(user=user).count()] and the three windows. *)
Definition total_usage (db : Database) (user : Z) : Z :=
  count (logs_of db user).

Definition today_usage (db : Database) (now : datetime) (user : Z) : Z :=
  count (logs_since db user (midnight now)).

Definition week_usage (db : Database) (now : datetime) (user : Z) : Z :=
  count (logs_since db user (now - timedelta_days 7)).

Definition month_usage (db : Database) (now : datetime) (user : Z) : Z :=
  count (logs_since db user (now - timedelta_days 30)).

(** [UserProfile.get_usage_summary]: the pair of ['total'] and
    ['this_week']. *)
Definition get_usage_summary (db : Database) (now : datetime) (user : Z)
  : Z * Z :=
  (count (logs_of db user),
   count (logs_since db user (now - timedelta_days 7))).

(** The chain of comparisons of the view (it repeats the model's). *)
Definition dashboard_level (compliance_percentage : Z) : string :=
  if 90 <=? compliance_percentage then "excellent"
  else if 75 <=? compliance_percentage then "good"
  else if 50 <=? compliance_percentage then "warning"
  else "violation".

(** [compliance_status]: [Some None] is Python's [None], for no active
    policy; the level, the percentage and the policy otherwise; [None]
    when [int] raises. *)
Definition dashboard_compliance (db : Database) (now : datetime) (user : Z)
  : option (option (string * Z * AIEthicsPolicy.t)) :=
  match first_active_policy db now with
  | None => Some None
  | Some active_policy =>
    let recent_logs := logs_since db user (now - timedelta_days 7) in
    let total_recent := count recent_logs in
    let compliant_recent :=
      count (filter AIUsageLog.is_compliant recent_logs) in
    let compliance_percentage :=
      if 0 <? total_recent
      then percentage compliant_recent total_recent
      else Some 100 in
    match compliance_percentage with
    | Some pct => Some (Some (dashboard_level pct, pct, active_policy))
    | None => None
    end
  end.

(** [AIUsageLog.objects.filter(user=user).order_by('-timestamp')[:10]] *)
Definition recent_logs (db : Database) (user : Z) : list AIUsageLog.t :=
  firstn 10 (sort_by newest_first (logs_of db user)).

(** [UserInsight.objects.filter(user=user, is_read=False,
    is_dismissed=False).order_by('-priority', '-generated_at')[:5]] *)
Definition unread_insights (db : Database) (user : Z) : list UserInsight.t :=
  firstn 5
    (order_by
       (filter (fun i => (UserInsight.user i =? user)
                         && negb (UserInsight.is_read i)
                         && negb (UserInsight.is_dismissed i))
               (insights db))).

(** The events of [user] between the first and the last microsecond of
    the day [d]: [datetime.combine(date, datetime.min.time())] to
    [datetime.combine(date, datetime.max.time())]. *)
Definition count_on_day (db : Database) (user : Z) (d : date) : Z :=
  let date_start := d * day_us in
  let date_end := d * day_us + (day_us - 1) in
  count (filter (fun row => (AIUsageLog.user row =? user)
                            && (date_start <=? AIUsageLog.timestamp row)
                            && (AIUsageLog.timestamp row <=? date_end))
                (usage_logs db)).

Section DailyUsage.

(** [date.strftime('%Y-%m-%d')] *)
Variable strftime : date -> string.

(** The trend of the last thirty days: [for i in range(29, -1, -1)]. *)
Definition daily_usage (db : Database) (now : datetime) (user : Z)
  : list (string * Z) :=
  map (fun i =>
         let d := date_of now - Z.of_nat i in
         (strftime d, count_on_day db user d))
      (rev (seq 0 30)).

End DailyUsage.

(** The sum of a list of numbers. *)
Definition sum (l : list Z) : Z := fold_right Z.add 0 l.

(** The events of [user] whose timestamp falls on a day from [first] to
    [last]. *)
Definition logs_on_days (db : Database) (user : Z) (first last : date)
  : list AIUsageLog.t :=
  filter (fun row => (AIUsageLog.user row =? user)
                     && (first <=? date_of (AIUsageLog.timestamp row))
                     && (date_of (AIUsageLog.timestamp row) <=? last))
         (usage_logs db).

(** ** [usage_history_view] *)

(** The parameters of [request.GET] the view reads.  [q_page] is the page
    parameter as a number, [None] when it is absent or no integer. *)
Record history_query := mkHistoryQuery {
  q_tool : option string;
  q_type : option string;
  q_date_from : option string;
  q_date_to : option string;
  q_page : option Z
}.

(** [if value:] on a GET parameter: absent and empty are both false. *)
Definition given (value : option string) : option string :=
  match value with
  | Some EmptyString => None
  | _ => value
  end.

(** Django's [Paginator], with [orphans=0] and
    [allow_empty_first_page=True]. *)
Definition num_pages (count per_page : Z) : Z :=
  (Z.max 1 count + per_page - 1) / per_page.

(** [Paginator.get_page]: a parameter that is no integer gives the first
    page, a number out of range the last one.  The result is the number
    of the page and its rows, [object_list[bottom:top]]. *)
Definition get_page {A} (object_list : list A) (per_page : Z)
    (number : option Z) : Z * list A :=
  let pages := num_pages (count object_list) per_page in
  let number :=
    match number with
    | None => 1
    | Some n => if (n <? 1) || (pages <? n) then pages else n
    end in
  let bottom := (number - 1) * per_page in
  let top := if count object_list <=? bottom + per_page
             then count object_list
             else bottom + per_page in
  (number,
   firstn (Z.to_nat (top - bottom)) (skipn (Z.to_nat bottom) object_list)).

Section UsageHistory.

(** [DateTimeField.to_python] on the text of a date parameter; [None]
    when it raises a [ValidationError]. *)
Variable to_python : string -> option datetime.

(** The queryset the view paginates; [None] when a date parameter is
    refused. *)
Definition history_logs (db : Database) (request_user : Z)
    (q : history_query) : option (list AIUsageLog.t) :=
  let usage_logs := sort_by newest_first (logs_of db request_user) in
  let usage_logs :=
    match given (q_tool q) with
    | Some tool_filter =>
      filter (fun row => String.eqb (AIUsageLog.ai_tool row) tool_filter)
             usage_logs
    | None => usage_logs
    end in
  let usage_logs :=
    match given (q_type q) with
    | Some type_filter =>
      filter (fun row => String.eqb (AIUsageLog.usage_type row) type_filter)
             usage_logs
    | None => usage_logs
    end in
  let from_checked :=
    match given (q_date_from q) with
    | Some date_from =>
      match to_python date_from with
      | Some since =>
        Some (filter (fun row => since <=? AIUsageLog.timestamp row)
                     usage_logs)
      | None => None
      end
    | None => Some usage_logs
    end in
  match from_checked with
  | None => None
  | Some usage_logs =>
    match given (q_date_to q) with
    | Some date_to =>
      match to_python date_to with
      | Some until =>
        Some (filter (fun row => AIUsageLog.timestamp row <=? until)
                     usage_logs)
      | None => None
      end
    | None => Some usage_logs
    end
  end.

(** [usage_history_view]: the page object of the context. *)
Definition usage_history_view (db : Database) (request_user : Z)
    (q : history_query) : option (Z * list AIUsageLog.t) :=
  match history_logs db request_user q with
  | Some usage_logs => Some (get_page usage_logs 25 (q_page q))
  | None => None
  end.

(** What a row must satisfy to be listed under [q]. *)
Definition matches (q : history_query) (row : AIUsageLog.t) : Prop :=
  (forall tool, given (q_tool q) = Some tool -> AIUsageLog.ai_tool row = tool)
  /\ (forall type, given (q_type q) = Some type ->
        AIUsageLog.usage_type row = type)
  /\ (forall text since, given (q_date_from q) = Some text ->
        to_python text = Some since -> since <= AIUsageLog.timestamp row)
  /\ (forall text until, given (q_date_to q) = Some text ->
        to_python text = Some until -> AIUsageLog.timestamp row <= until).

End UsageHistory.

(** Sixty events listed 25 to a page, with no filter. *)
Definition no_filter (number : option Z) : history_query :=
  mkHistoryQuery None None None None number.

(** ** The receivers on [User] *)








(** ** Sorting *)

Section SortBy.

Context {A : Type}.
Variable before : A -> A -> bool.
Hypothesis before_total : forall a b, before a b = true \/ before b a = true.
Hypothesis before_trans :
  forall a b c, before a b = true -> before b c = true -> before a c = true.

Lemma insert_by_perm (a : A) (l : list A) :
  Permutation (insert_by before a l) (a :: l).
Proof.
  induction l as [|b l IH]; cbn [insert_by]; [reflexivity|].
  destruct (before a b); [reflexivity|].
  rewrite IH. apply perm_swap.
Qed.

Lemma sort_by_perm (l : list A) : Permutation (sort_by before l) l.
Proof.
  unfold sort_by. induction l as [|a l IH]; cbn [fold_right]; [reflexivity|].
  rewrite insert_by_perm. now constructor.
Qed.

Lemma insert_by_sorted (a : A) (l : list A) :
  StronglySorted (fun x y => before x y = true) l ->
  StronglySorted (fun x y => before x y = true) (insert_by before a l).
Proof.
  induction 1 as [|b l Hl IH Hb]; cbn [insert_by].
  - repeat constructor.
  - destruct (before a b) eqn:Hab.
    + constructor; [now constructor|]. constructor; [exact Hab|].
      apply Forall_forall. intros x Hx. rewrite Forall_forall in Hb.
      apply (before_trans a b x Hab). now apply Hb.
    + constructor; [exact IH|].
      apply Forall_forall. intros x Hx.
      apply (Permutation_in _ (insert_by_perm a l)) in Hx as [<-|Hx].
      * destruct (before_total a b) as [H|H]; [congruence | exact H].
      * rewrite Forall_forall in Hb. now apply Hb.
Qed.

Lemma sort_by_sorted (l : list A) :
  StronglySorted (fun x y => before x y = true) (sort_by before l).
Proof.
  unfold sort_by. induction l as [|a l IH]; cbn [fold_right].
  - constructor.
  - now apply insert_by_sorted.
Qed.

End SortBy.

Lemma In_sort_by {A} (before : A -> A -> bool) (x : A) (l : list A) :
  In x (sort_by before l) <-> In x l.
Proof.
  split; apply Permutation_in;
    [apply sort_by_perm | symmetry; apply sort_by_perm].
Qed.

Lemma sort_by_nil {A} (before : A -> A -> bool) (l : list A) :
  sort_by before l = [] <-> l = [].
Proof.
  split; [|now intros ->].
  intros H. apply Permutation_nil.
  rewrite <- H. apply sort_by_perm.
Qed.

Lemma StronglySorted_app_inv {A} (R : A -> A -> Prop) (l1 l2 : list A) :
  StronglySorted R (l1 ++ l2) ->
  StronglySorted R l1
  /\ forall x y, In x l1 -> In y l2 -> R x y.
Proof.
  induction l1 as [|a l1 IH]; cbn [app].
  - intros _. split; [constructor | intros x y []].
  - intros H. inversion H as [|? ? Hs Hall]; subst.
    destruct (IH Hs) as (Hs1 & Hcross). split.
    + constructor; [exact Hs1|].
      apply Forall_forall. intros x Hx. rewrite Forall_forall in Hall.
      apply Hall, in_or_app. now left.
    + intros x y [<-|Hx] Hy.
      * rewrite Forall_forall in Hall. apply Hall, in_or_app. now right.
      * now apply Hcross.
Qed.

(** ** Properties of the policy model *)

(** On its last day a policy is active, while that day lies outside the
    half-open range. *)
Lemma active_on_last_day_of_range : ~ active_on_half_open_range.
Proof.
  intros H.
  assert (Ha : AIEthicsPolicy.is_active ending_policy t0 = true)
    by (vm_compute; reflexivity).
  apply H in Ha. destruct Ha as (_ & _ & [Hn | (until & Hu & Hlt)]).
  - discriminate Hn.
  - injection Hu as <-. vm_compute in Hlt. discriminate Hlt.
Qed.

(** C5, as the code has it.  With today the day of the current time,
    [is_active] holds exactly when the status is [active] and today lies
    in the closed range from [effective_from] to [effective_until], the
    last day included, or from [effective_from] on when no end is set. *)
Theorem is_active_iff (self : AIEthicsPolicy.t) (now : datetime) :
  let today := now / 86400000000 in
  AIEthicsPolicy.is_active self now = true <->
  AIEthicsPolicy.status self = "active"
  /\ AIEthicsPolicy.effective_from self <= today
  /\ (AIEthicsPolicy.effective_until self = None
      \/ exists until, AIEthicsPolicy.effective_until self = Some until
                       /\ today <= until).
Proof.
  cbv zeta. change (now / 86400000000) with (date_of now).
  unfold AIEthicsPolicy.is_active.
  destruct (String.eqb_spec (AIEthicsPolicy.status self) "active") as [Hs|Hs];
    cbn [negb].
  - destruct (Z.ltb_spec (date_of now) (AIEthicsPolicy.effective_from self))
      as [Hf|Hf].
    + split; [discriminate | intros (_ & H & _); lia].
    + destruct (AIEthicsPolicy.effective_until self) as [until|].
      * destruct (Z.ltb_spec until (date_of now)) as [Hu|Hu].
        -- split; [discriminate|].
           intros (_ & _ & [H | (u & H & Hn)]); [discriminate|].
           injection H as <-. lia.
        -- split; [|reflexivity].
           intros _. repeat split; [assumption | lia |].
           right. exists until. split; [reflexivity | lia].
      * split; [|reflexivity].
        intros _. repeat split; [assumption | lia | now left].
  - split; [discriminate | intros (H & _); contradiction].
Qed.

(** On the day [effective_until] names, an active policy is still active. *)
Lemma is_active_on_last_day (self : AIEthicsPolicy.t) (now : datetime) :
  AIEthicsPolicy.status self = "active" ->
  AIEthicsPolicy.effective_from self <= date_of now ->
  AIEthicsPolicy.effective_until self = Some (date_of now) ->
  AIEthicsPolicy.is_active self now = true.
Proof.
  intros Hs Hf Hu. unfold AIEthicsPolicy.is_active.
  rewrite Hs, Hu. cbn [String.eqb negb].
  replace (date_of now <? AIEthicsPolicy.effective_from self) with false
    by (symmetry; apply Z.ltb_ge; exact Hf).
  now rewrite Z.ltb_irrefl.
Qed.

(** ** Properties of the policy evaluator *)

(** The queries of the code count what the statements count. *)

Lemma midnight_start_of_day (now : datetime) : midnight now = start_of_day now.
Proof.
  unfold midnight, start_of_day, day_us.
  pose proof (Z.div_mod now 86400000000). lia.
Qed.

Lemma week_before (now : datetime) :
  now - timedelta_days 7 = now - 604800000000.
Proof. reflexivity. Qed.

Lemma count_logs_since_events db user since :
  count (logs_since db user since)
  = Z.of_nat (List.length (events_since db user since)).
Proof. reflexivity. Qed.

Lemma count_logs_of_events db user :
  count (logs_of db user) = all_time_count db user.
Proof. reflexivity. Qed.

Lemma daily_count_query db user now :
  count (logs_since db user (midnight now)) = daily_count db user now.
Proof. now rewrite midnight_start_of_day. Qed.

Lemma weekly_count_query db user now :
  count (logs_since db user (now - timedelta_days 7))
  = weekly_count db user now.
Proof. reflexivity. Qed.

(** The four outcomes of [check_compliance], as equations. *)

Lemma check_compliance_inactive db now self :
  active_policy db now self = None ->
  check_compliance db now self = (AIUsageLog.set_is_compliant self true, []).
Proof.
  unfold active_policy, check_compliance.
  destruct (policy_of db self) as [p|]; [|reflexivity].
  destruct (AIEthicsPolicy.is_active p now); [discriminate|reflexivity].
Qed.

Lemma check_compliance_daily db now self p :
  active_policy db now self = Some p ->
  AIEthicsPolicy.max_daily_usage p <= daily_count db (AIUsageLog.user self) now ->
  check_compliance db now self =
  (verdict self false (daily_note p),
   [CountLogsSince (AIUsageLog.user self) (start_of_day now)]).
Proof.
  unfold active_policy, check_compliance.
  destruct (policy_of db self) as [q|]; [|discriminate].
  destruct (AIEthicsPolicy.is_active q now); [|discriminate].
  intros [= ->] Hd. unfold bind, count_logs_since, ret.
  rewrite daily_count_query, midnight_start_of_day.
  apply Z.leb_le in Hd. now rewrite Hd.
Qed.

Lemma check_compliance_weekly db now self p :
  active_policy db now self = Some p ->
  daily_count db (AIUsageLog.user self) now < AIEthicsPolicy.max_daily_usage p ->
  AIEthicsPolicy.max_weekly_usage p <= weekly_count db (AIUsageLog.user self) now ->
  check_compliance db now self =
  (verdict self false (weekly_note p),
   [CountLogsSince (AIUsageLog.user self) (start_of_day now);
    CountLogsSince (AIUsageLog.user self) (now - 604800000000)]).
Proof.
  unfold active_policy, check_compliance.
  destruct (policy_of db self) as [q|]; [|discriminate].
  destruct (AIEthicsPolicy.is_active q now); [|discriminate].
  intros [= ->] Hd Hw. unfold bind, count_logs_since, ret.
  rewrite daily_count_query, weekly_count_query, midnight_start_of_day,
    week_before.
  apply Z.leb_gt in Hd. rewrite Hd.
  apply Z.leb_le in Hw. now rewrite Hw.
Qed.

Lemma check_compliance_within db now self p :
  active_policy db now self = Some p ->
  daily_count db (AIUsageLog.user self) now < AIEthicsPolicy.max_daily_usage p ->
  weekly_count db (AIUsageLog.user self) now < AIEthicsPolicy.max_weekly_usage p ->
  check_compliance db now self =
  (verdict self true within_note,
   [CountLogsSince (AIUsageLog.user self) (start_of_day now);
    CountLogsSince (AIUsageLog.user self) (now - 604800000000)]).
Proof.
  unfold active_policy, check_compliance.
  destruct (policy_of db self) as [q|]; [|discriminate].
  destruct (AIEthicsPolicy.is_active q now); [|discriminate].
  intros [= ->] Hd Hw. unfold bind, count_logs_since, ret.
  rewrite daily_count_query, weekly_count_query, midnight_start_of_day,
    week_before.
  apply Z.leb_gt in Hd. rewrite Hd.
  apply Z.leb_gt in Hw. now rewrite Hw.
Qed.

(** The evaluator writes the two verdict fields and nothing else. *)
Lemma check_compliance_frame db now self :
  same_but_verdict self (fst (check_compliance db now self)).
Proof.
  unfold same_but_verdict.
  destruct (active_policy db now self) as [p|] eqn:Hp.
  - destruct (Z.le_gt_cases (AIEthicsPolicy.max_daily_usage p)
                (daily_count db (AIUsageLog.user self) now)) as [Hd|Hd].
    + rewrite (check_compliance_daily _ _ _ _ Hp Hd). reflexivity.
    + destruct (Z.le_gt_cases (AIEthicsPolicy.max_weekly_usage p)
                  (weekly_count db (AIUsageLog.user self) now)) as [Hw|Hw].
      * rewrite (check_compliance_weekly _ _ _ _ Hp Hd Hw). reflexivity.
      * rewrite (check_compliance_within _ _ _ _ Hp Hd Hw). reflexivity.
  - rewrite (check_compliance_inactive _ _ _ Hp). reflexivity.
Qed.

(** An event that carries a note from an earlier evaluation keeps it when
    it is evaluated with no active policy: it is marked compliant, with the
    note of the violation still on it. *)
Lemma stale_note_kept : ~ no_policy_no_notes.
Proof.
  intros H.
  assert (Hp : active_policy db_archived t0 flagged_log = None)
    by (vm_compute; reflexivity).
  destruct (H db_archived t0 flagged_log Hp) as (_ & Hn).
  vm_compute in Hn. discriminate Hn.
Qed.

(** C1, as the code has it.  With no active policy the event is marked
    compliant, [compliance_notes] is not written (it stays what it was:
    empty on a new event, the old note on one evaluated before) and no
    count is taken.  With an active policy: when the number of the same
    user's stored events since midnight is at or above [max_daily_usage]
    the event is marked non-compliant with the daily note, and the count
    since midnight is the only query run, the weekly one is not; otherwise,
    when the number of the same user's stored events of the trailing seven
    days is at or above [max_weekly_usage], it is marked non-compliant with
    the weekly note; otherwise it is marked compliant.  No other field of
    the event is written. *)
Theorem check_compliance_cases (db : Database) (now : datetime)
    (self : AIUsageLog.t) :
  let user := AIUsageLog.user self in
  let result := fst (check_compliance db now self) in
  let queries := snd (check_compliance db now self) in
  (active_policy db now self = None ->
     AIUsageLog.is_compliant result = true
     /\ AIUsageLog.compliance_notes result = AIUsageLog.compliance_notes self
     /\ queries = [])
  /\ (forall p, active_policy db now self = Some p ->
      (AIEthicsPolicy.max_daily_usage p <= daily_count db user now ->
         AIUsageLog.is_compliant result = false
         /\ AIUsageLog.compliance_notes result = daily_note p
         /\ queries = [CountLogsSince user (start_of_day now)])
      /\ (daily_count db user now < AIEthicsPolicy.max_daily_usage p ->
          AIEthicsPolicy.max_weekly_usage p <= weekly_count db user now ->
          AIUsageLog.is_compliant result = false
          /\ AIUsageLog.compliance_notes result = weekly_note p
          /\ queries = [CountLogsSince user (start_of_day now);
                        CountLogsSince user (now - 604800000000)])
      /\ (daily_count db user now < AIEthicsPolicy.max_daily_usage p ->
          weekly_count db user now < AIEthicsPolicy.max_weekly_usage p ->
          AIUsageLog.is_compliant result = true))
  /\ same_but_verdict self result.
Proof.
  cbv zeta. split; [|split].
  - intros Hp. rewrite (check_compliance_inactive _ _ _ Hp).
    repeat split.
  - intros p Hp. split; [|split].
    + intros Hd. rewrite (check_compliance_daily _ _ _ _ Hp Hd).
      repeat split.
    + intros Hd Hw. rewrite (check_compliance_weekly _ _ _ _ Hp Hd Hw).
      repeat split.
    + intros Hd Hw. rewrite (check_compliance_within _ _ _ _ Hp Hd Hw).
      reflexivity.
  - apply check_compliance_frame.
Qed.

(** In the store of two users and two days: user 7 has five events since
    midnight and is over the daily limit of five; user 8 has seven events
    in all but four since midnight, and is within the limits. *)
Lemma check_compliance_cases_witness :
  AIUsageLog.is_compliant
    (fst (check_compliance db_mixed (t0 + 20) (test_log 7))) = false
  /\ snd (check_compliance db_mixed (t0 + 20) (test_log 7))
     = [CountLogsSince 7 (start_of_day (t0 + 20))]
  /\ AIUsageLog.is_compliant
       (fst (check_compliance db_mixed (t0 + 20) (test_log 8))) = true.
Proof.
  destruct (check_compliance_cases db_mixed (t0 + 20) (test_log 7))
    as (_ & H7 & _).
  destruct (check_compliance_cases db_mixed (t0 + 20) (test_log 8))
    as (_ & H8 & _).
  assert (Hp7 : active_policy db_mixed (t0 + 20) (test_log 7)
                = Some test_policy) by (vm_compute; reflexivity).
  assert (Hp8 : active_policy db_mixed (t0 + 20) (test_log 8)
                = Some test_policy) by (vm_compute; reflexivity).
  destruct (H7 test_policy Hp7) as (Hd & _).
  destruct (H8 test_policy Hp8) as (_ & _ & Hw).
  assert (Hd7 : AIEthicsPolicy.max_daily_usage test_policy
                <= daily_count db_mixed (AIUsageLog.user (test_log 7))
                     (t0 + 20)) by (vm_compute; discriminate).
  assert (Hd8 : daily_count db_mixed (AIUsageLog.user (test_log 8)) (t0 + 20)
                < AIEthicsPolicy.max_daily_usage test_policy)
    by (vm_compute; reflexivity).
  assert (Hw8 : weekly_count db_mixed (AIUsageLog.user (test_log 8)) (t0 + 20)
                < AIEthicsPolicy.max_weekly_usage test_policy)
    by (vm_compute; reflexivity).
  destruct (Hd Hd7) as (Hc & _ & Hq).
  split; [exact Hc|]. split; [exact Hq|]. exact (Hw Hd8 Hw8).
Defined.

(** *** Saving and creating *)

Lemma midnight_le (t : datetime) : midnight t <= t.
Proof.
  unfold midnight.
  pose proof (Z.mod_pos_bound t day_us eq_refl). lia.
Qed.

Lemma generate_usage_insights_logs db now instance created :
  usage_logs (generate_usage_insights db now instance created) = usage_logs db.
Proof.
  unfold generate_usage_insights.
  destruct created; cbn [negb]; [|reflexivity].
  repeat match goal with
         | |- context [if ?c then _ else _] => destruct c
         end; reflexivity.
Qed.

Lemma same_but_verdict_fields a b :
  same_but_verdict a b ->
  AIUsageLog.id b = AIUsageLog.id a
  /\ AIUsageLog.user b = AIUsageLog.user a
  /\ AIUsageLog.policy b = AIUsageLog.policy a
  /\ AIUsageLog.timestamp b = AIUsageLog.timestamp a.
Proof. intros <-. repeat split. Qed.

Lemma evaluated_frame db now self :
  same_but_verdict self (evaluated db now self).
Proof.
  unfold evaluated. destruct (policy_of db self).
  - apply check_compliance_frame.
  - destruct self; reflexivity.
Qed.

(** [save] of an instance without primary key inserts one row, at the end
    of the table. *)
Lemma save_insert db now self :
  AIUsageLog.id self = None ->
  let row := AIUsageLog.set_inserted (evaluated db now self)
               (next_pk (map AIUsageLog.id (usage_logs db))) now in
  save db now self =
  (generate_usage_insights (with_usage_logs db (usage_logs db ++ [row]))
     now row true,
   row).
Proof.
  intros Hid. cbv zeta. unfold save.
  unfold Model_save.
  destruct (same_but_verdict_fields _ _ (evaluated_frame db now self))
    as (Hid' & _).
  rewrite Hid', Hid. reflexivity.
Qed.

Lemma create_inserts db now self :
  let row := AIUsageLog.set_inserted (evaluated db now (unsaved self))
               (next_pk (map AIUsageLog.id (usage_logs db))) now in
  create db now self =
  (generate_usage_insights (with_usage_logs db (usage_logs db ++ [row]))
     now row true,
   row).
Proof. unfold create. now apply save_insert. Qed.

Lemma create_usage_logs db now self :
  usage_logs (fst (create db now self))
  = usage_logs db ++ [snd (create db now self)].
Proof.
  rewrite create_inserts. cbn [fst snd].
  now rewrite generate_usage_insights_logs.
Qed.

Lemma create_row_fields db now self :
  let row := snd (create db now self) in
  AIUsageLog.user row = AIUsageLog.user self
  /\ AIUsageLog.timestamp row = now
  /\ AIUsageLog.is_compliant row
     = AIUsageLog.is_compliant (evaluated db now (unsaved self))
  /\ AIUsageLog.compliance_notes row
     = AIUsageLog.compliance_notes (evaluated db now (unsaved self)).
Proof.
  rewrite create_inserts. cbn [fst snd AIUsageLog.set_inserted
    AIUsageLog.user AIUsageLog.timestamp AIUsageLog.is_compliant
    AIUsageLog.compliance_notes].
  destruct (same_but_verdict_fields _ _ (evaluated_frame db now (unsaved self)))
    as (_ & Hu & _).
  rewrite Hu. repeat split.
Qed.

Lemma count_app {A} (l l' : list A) : count (l ++ l') = count l + count l'.
Proof. unfold count. rewrite length_app. lia. Qed.

(** The row a creation stores is among the user's events of the day. *)
Lemma create_daily_count db now self :
  daily_count (fst (create db now self)) (AIUsageLog.user self) now
  = daily_count db (AIUsageLog.user self) now + 1.
Proof.
  unfold daily_count, events_since.
  rewrite create_usage_logs, filter_app, length_app.
  destruct (create_row_fields db now self) as (Hu & Ht & _).
  cbn [filter]. rewrite Hu, Ht, Z.eqb_refl.
  replace (start_of_day now <=? now) with true
    by (symmetry; apply Z.leb_le; rewrite <- midnight_start_of_day;
        apply midnight_le).
  cbn [andb List.length]. lia.
Qed.

Lemma policy_of_unsaved db self :
  policy_of db (unsaved self) = policy_of db self.
Proof. reflexivity. Qed.

Lemma active_policy_intro db now self p :
  policy_of db self = Some p ->
  AIEthicsPolicy.is_active p now = true ->
  active_policy db now self = Some p.
Proof. unfold active_policy. now intros -> ->. Qed.

(** C2. Under an active policy with [max_daily_usage = 5], the event created
    when the store holds five events of the same user since midnight is
    non-compliant.  The count the check uses is taken on the store as it is
    before the new row is written: the row is appended afterwards and
    raises the day's count by one, and an event created when the store
    holds fewer than five is within the daily limit. *)
Theorem sixth_event_non_compliant (db : Database) (now : datetime)
    (self : AIUsageLog.t) (p : AIEthicsPolicy.t) :
  policy_of db self = Some p ->
  AIEthicsPolicy.is_active p now = true ->
  AIEthicsPolicy.max_daily_usage p = 5 ->
  let user := AIUsageLog.user self in
  let db' := fst (create db now self) in
  let row := snd (create db now self) in
  (daily_count db user now = 5 -> AIUsageLog.is_compliant row = false)
  /\ usage_logs db' = usage_logs db ++ [row]
  /\ daily_count db' user now = daily_count db user now + 1
  /\ (daily_count db user now < 5 ->
      weekly_count db user now < AIEthicsPolicy.max_weekly_usage p ->
      AIUsageLog.is_compliant row = true).
Proof.
  intros Hp Ha Hmax. cbv zeta.
  destruct (create_row_fields db now self) as (_ & _ & Hc & _).
  assert (He : evaluated db now (unsaved self)
               = fst (check_compliance db now (unsaved self))).
  { unfold evaluated. rewrite policy_of_unsaved, Hp. reflexivity. }
  assert (Hact : active_policy db now (unsaved self) = Some p).
  { apply active_policy_intro; [rewrite policy_of_unsaved|]; assumption. }
  rewrite Hc, He. split; [|split; [|split]].
  - intros Hd.
    rewrite (check_compliance_daily _ _ _ _ Hact); [reflexivity|].
    change (AIUsageLog.user (unsaved self)) with (AIUsageLog.user self). lia.
  - apply create_usage_logs.
  - apply create_daily_count.
  - intros Hd Hw.
    rewrite (check_compliance_within _ _ _ _ Hact); [reflexivity| |].
    + change (AIUsageLog.user (unsaved self)) with (AIUsageLog.user self). lia.
    + exact Hw.
Qed.

(** In the store of two users and two days, where user 7 has five events
    since midnight and user 8 four: the next event of user 7 is
    non-compliant, the next event of user 8 is compliant. *)
Lemma sixth_event_non_compliant_witness :
  AIUsageLog.is_compliant (snd (create db_mixed (t0 + 20) (test_log 7)))
  = false
  /\ AIUsageLog.is_compliant (snd (create db_mixed (t0 + 20) (test_log 8)))
     = true.
Proof.
  assert (Ha : AIEthicsPolicy.is_active test_policy (t0 + 20) = true)
    by (vm_compute; reflexivity).
  assert (Hp7 : policy_of db_mixed (test_log 7) = Some test_policy)
    by (vm_compute; reflexivity).
  assert (Hp8 : policy_of db_mixed (test_log 8) = Some test_policy)
    by (vm_compute; reflexivity).
  destruct (sixth_event_non_compliant db_mixed (t0 + 20) (test_log 7)
              test_policy Hp7 Ha eq_refl) as (H7 & _).
  destruct (sixth_event_non_compliant db_mixed (t0 + 20) (test_log 8)
              test_policy Hp8 Ha eq_refl) as (_ & _ & _ & H8).
  split.
  - apply H7. vm_compute. reflexivity.
  - apply H8; vm_compute; reflexivity.
Defined.

(** The scenario of [test_compliance_checking]: of six events in a row,
    the first five are compliant and the sixth is not. *)
Example six_events_in_a_row :
  map AIUsageLog.is_compliant
      (usage_logs (create_all db0 (events_from 7 t0 6)))
  = [true; true; true; true; true; false].
Proof. vm_compute. reflexivity. Qed.

(** *** Later saves *)

Lemma In_map_replace {A} (f : A -> bool) (x : A) (l : list A) :
  existsb f l = true ->
  In x (map (fun y => if f y then x else y) l).
Proof.
  induction l as [|y l IH]; cbn; [discriminate|].
  destruct (f y); cbn; auto.
Qed.

Lemma Model_save_stored db now self :
  In (snd (fst (Model_save db now self)))
     (usage_logs (fst (fst (Model_save db now self)))).
Proof.
  unfold Model_save.
  destruct (AIUsageLog.id self) as [pk|].
  - destruct (existsb _ (usage_logs db)) eqn:He; cbn.
    + now apply In_map_replace.
    + apply in_or_app. right. now left.
  - cbn. apply in_or_app. right. now left.
Qed.

Lemma Model_save_verdict db now self :
  let row := snd (fst (Model_save db now self)) in
  AIUsageLog.is_compliant row = AIUsageLog.is_compliant self
  /\ AIUsageLog.compliance_notes row = AIUsageLog.compliance_notes self.
Proof.
  unfold Model_save.
  destruct (AIUsageLog.id self) as [pk|];
    [destruct (existsb _ (usage_logs db))|]; cbn; split; reflexivity.
Qed.

Lemma save_unfold db now self :
  save db now self =
  (generate_usage_insights
     (fst (fst (Model_save db now (evaluated db now self)))) now
     (snd (fst (Model_save db now (evaluated db now self))))
     (snd (Model_save db now (evaluated db now self))),
   snd (fst (Model_save db now (evaluated db now self)))).
Proof.
  unfold save.
  destruct (Model_save db now (evaluated db now self)) as [[db1 self2] c].
  reflexivity.
Qed.

(** [save] does not tell the first save of a log from a later one: when
    the log refers to a policy it is evaluated, against the policy and the
    counts as they are at that moment, and that verdict is stored; a log
    that refers to no policy is stored with the verdict it carries.
    Saving a policy leaves the usage-log table as it is. *)
Lemma save_stores_evaluation (db : Database) (now : datetime)
    (self : AIUsageLog.t) :
  let db' := fst (save db now self) in
  let row := snd (save db now self) in
  In row (usage_logs db')
  /\ (policy_of db self <> None ->
      AIUsageLog.is_compliant row
      = AIUsageLog.is_compliant (fst (check_compliance db now self))
      /\ AIUsageLog.compliance_notes row
         = AIUsageLog.compliance_notes (fst (check_compliance db now self)))
  /\ (policy_of db self = None ->
      AIUsageLog.is_compliant row = AIUsageLog.is_compliant self
      /\ AIUsageLog.compliance_notes row = AIUsageLog.compliance_notes self)
  /\ (forall p, usage_logs (save_policy db p) = usage_logs db).
Proof.
  cbv zeta. rewrite save_unfold. cbn [fst snd].
  rewrite generate_usage_insights_logs.
  split; [apply Model_save_stored|].
  destruct (Model_save_verdict db now (evaluated db now self)) as (Hc & Hn).
  rewrite Hc, Hn. unfold evaluated.
  split; [|split].
  - intros Hp. destruct (policy_of db self); [split; reflexivity|].
    now contradiction Hp.
  - intros ->. split; reflexivity.
  - reflexivity.
Qed.

(** The first event of the day was stored as compliant; after the policy is
    edited down to one event per day, saving that same row again stores it
    as non-compliant. *)
Lemma verdict_recomputed_on_later_save : ~ verdict_computed_once.
Proof.
  intros H.
  assert (Hin : In row1 (usage_logs db2)) by (vm_compute; now left).
  destruct (H db2 (t0 + 1) row1 Hin) as (Hc & _).
  vm_compute in Hc. discriminate Hc.
Qed.

(** C3.  The verdict of a stored log does not stay what it was at insert
    time when the log is saved again, even with the policy untouched: the
    check runs again, and now the row counts itself and the events that
    came after it.  Of the five events user 7 logged on one day under the
    policy of five a day, the first was stored compliant, with the note of
    an event within the limits; saved again on that day it is stored
    non-compliant, with the daily note, while the policy table is what it
    was. *)
Theorem first_event_saved_again :
  exists row rest,
    usage_logs db5 = row :: rest
    /\ AIUsageLog.is_compliant row = true
    /\ AIUsageLog.compliance_notes row = within_note
    /\ policies (fst (save db5 (t0 + 5) row)) = policies db0
    /\ In (snd (save db5 (t0 + 5) row))
          (usage_logs (fst (save db5 (t0 + 5) row)))
    /\ AIUsageLog.id (snd (save db5 (t0 + 5) row)) = AIUsageLog.id row
    /\ AIUsageLog.is_compliant (snd (save db5 (t0 + 5) row)) = false
    /\ AIUsageLog.compliance_notes (snd (save db5 (t0 + 5) row))
       = daily_note test_policy.
Proof.
  eexists. eexists. split; [vm_compute; reflexivity|].
  vm_compute. repeat split. now left.
Qed.

(** ** Properties of the compliance aggregator *)

Lemma level_of_score_cases (s : Z) :
  (90 <= s -> level_of_score s = "excellent")
  /\ (75 <= s < 90 -> level_of_score s = "good")
  /\ (50 <= s < 75 -> level_of_score s = "warning")
  /\ (s < 50 -> level_of_score s = "violation").
Proof.
  unfold level_of_score.
  destruct (Z.leb_spec 90 s), (Z.leb_spec 75 s), (Z.leb_spec 50 s);
    repeat split; intros; solve [reflexivity | lia].
Qed.

(** Two compliant events out of three give 66, while the percentage is
    66.67.  A percentage that is a whole number can come out one lower:
    [29 / 100 * 100] is just under 29 in binary64. *)
Example percentage_truncates :
  percentage 2 3 = Some 66 /\ percentage 29 100 = Some 28
  /\ percentage 57 100 = Some 56 /\ percentage 1 2 = Some 50.
Proof. vm_compute. repeat split. Qed.

(** The quotient is rounded from the exact integers, not from operands
    converted to binary64 first: [2 ^ 53] of [2 ^ 53 + 1] is just under 1. *)
Example percentage_of_large_counts :
  percentage (2 ^ 53) (2 ^ 53 + 1) = Some 99.
Proof. vm_compute. reflexivity. Qed.

Lemma score_not_rounded : ~ score_is_rounded.
Proof.
  intros H.
  specialize (H two_of_three
                (ComplianceStatus.set_score_level two_of_three 66 "warning")).
  assert (Hc : calculate_score two_of_three
               = Some (ComplianceStatus.set_score_level two_of_three 66
                         "warning"))
    by (vm_compute; reflexivity).
  specialize (H Hc).
  assert (Ht : ComplianceStatus.total_usage_count two_of_three <> 0)
    by (vm_compute; discriminate).
  specialize (H Ht). vm_compute in H. now apply H.
Qed.

(** *** The error of the two roundings *)

Lemma div_nearest_even_error (n d : Z) :
  0 <= n -> 0 < d -> 2 * Z.abs (div_nearest_even n d * d - n) <= d.
Proof.
  intros Hn Hd. unfold div_nearest_even.
  pose proof (Z.div_mod n d ltac:(lia)) as Hdm.
  pose proof (Z.mod_pos_bound n d Hd) as Hr.
  destruct (Z.ltb_spec (2 * (n mod d)) d) as [H1|H1].
  - replace (n / d * d - n) with (- (n mod d)) by lia. lia.
  - destruct (Z.ltb_spec d (2 * (n mod d))) as [H2|H2].
    + replace ((n / d + 1) * d - n) with (d - n mod d) by lia. lia.
    + destruct (Z.even (n / d)).
      * replace (n / d * d - n) with (- (n mod d)) by lia. lia.
      * replace ((n / d + 1) * d - n) with (d - n mod d) by lia. lia.
Qed.

Lemma div_nearest_even_le (n d M : Z) :
  0 < d -> n <= M * d -> div_nearest_even n d <= M.
Proof.
  intros Hd Hle. unfold div_nearest_even.
  pose proof (Z.div_mod n d ltac:(lia)) as Hdm.
  pose proof (Z.mod_pos_bound n d Hd) as Hr.
  assert (Hq : n / d <= M) by (apply Z.div_le_upper_bound; lia).
  destruct (Z.ltb_spec (2 * (n mod d)) d) as [H1|H1]; [exact Hq|].
  assert (Hlt : n / d < M) by nia.
  destruct (Z.ltb_spec d (2 * (n mod d))); [lia|].
  destruct (Z.even (n / d)); lia.
Qed.

Lemma div_nearest_even_ge (n d M : Z) :
  0 < d -> M * d <= n -> M <= div_nearest_even n d.
Proof.
  intros Hd Hle. unfold div_nearest_even.
  assert (Hq : M <= n / d) by (apply Z.div_le_lower_bound; lia).
  destruct (2 * (n mod d) <? d); [exact Hq|].
  destruct (d <? 2 * (n mod d)); [lia|].
  destruct (Z.even (n / d)); lia.
Qed.

(** The quotient of two counts, [1 <= c <= t]: a mantissa [m] over
    [2 ^ E], within half a unit of [c / t]. *)
Lemma round64_quotient (c t : Z) :
  1 <= c <= t -> t < 2 ^ 52 ->
  exists m E,
    round64 c t = Some (m, - E)
    /\ 52 <= E <= 1074
    /\ 1 <= m <= 2 ^ E
    /\ 2 * Z.abs (m * t - c * 2 ^ E) <= t.
Proof.
  intros Hc Ht. unfold round64.
  replace (c =? 0) with false by (symmetry; apply Z.eqb_neq; lia).
  set (k := Z.log2 c - Z.log2 t).
  assert (Hk : k <= 0) by (pose proof (Z.log2_le_mono c t); lia).
  set (l := if t * 2 ^ Z.max 0 k <=? c * 2 ^ Z.max 0 (- k) then k else k - 1).
  assert (Hl : l <= 0) by (subst l; destruct (_ <=? _); lia).
  set (e := Z.max (-1074) (l - 52)).
  assert (He : -1074 <= e <= -52) by lia.
  replace (Z.max 0 (- e)) with (- e) by lia.
  replace (Z.max 0 e) with 0 by lia.
  replace (971 <? e) with false by (symmetry; apply Z.ltb_ge; lia).
  replace (e =? 971) with false by (symmetry; apply Z.eqb_neq; lia).
  cbn [orb andb]. change (2 ^ 0) with 1. rewrite Z.mul_1_r.
  exists (div_nearest_even (c * 2 ^ (- e)) t), (- e).
  rewrite Z.opp_involutive.
  assert (Hpow : 2 ^ 52 <= 2 ^ (- e)) by (apply Z.pow_le_mono_r; lia).
  split; [reflexivity|]. split; [lia|]. split; [split|].
  - apply div_nearest_even_ge; [lia|]. nia.
  - apply div_nearest_even_le; [lia|]. nia.
  - apply div_nearest_even_error; [nia | lia].
Qed.

(** The product of such a quotient with 100: a mantissa [m'] over
    [2 ^ E'], within half a unit of [100 * m / 2 ^ E]. *)
Lemma round64_times_100 (m E : Z) :
  52 <= E <= 1074 -> 1 <= m <= 2 ^ E ->
  exists m' E',
    round64 (100 * m * 2 ^ Z.max 0 (- E)) (2 ^ Z.max 0 (- - E))
    = Some (m', - E')
    /\ 46 <= E' <= 1074
    /\ 0 <= m'
    /\ 2 * Z.abs (m' * 2 ^ E - 100 * m * 2 ^ E') <= 2 ^ E.
Proof.
  intros HE Hm. unfold round64.
  replace (Z.max 0 (- E)) with 0 by lia.
  replace (Z.max 0 (- - E)) with E by lia.
  change (2 ^ 0) with 1. rewrite Z.mul_1_r.
  assert (HpE : 0 < 2 ^ E) by (apply Z.pow_pos_nonneg; lia).
  replace (100 * m =? 0) with false by (symmetry; apply Z.eqb_neq; lia).
  rewrite Z.log2_pow2 by lia.
  set (k := Z.log2 (100 * m) - E).
  assert (Hk : k <= 6).
  { assert (H : Z.log2 (100 * m) < E + 7).
    { apply Z.log2_lt_pow2; [lia|].
      rewrite Z.pow_add_r by lia. change (2 ^ 7) with 128. lia. }
    lia. }
  set (l := if 2 ^ E * 2 ^ Z.max 0 k <=? 100 * m * 2 ^ Z.max 0 (- k)
            then k else k - 1).
  assert (Hl : l <= 6) by (subst l; destruct (_ <=? _); lia).
  set (e := Z.max (-1074) (l - 52)).
  assert (He : -1074 <= e <= -46) by lia.
  replace (Z.max 0 (- e)) with (- e) by lia.
  replace (Z.max 0 e) with 0 by lia.
  replace (971 <? e) with false by (symmetry; apply Z.ltb_ge; lia).
  replace (e =? 971) with false by (symmetry; apply Z.eqb_neq; lia).
  cbn [orb andb]. change (2 ^ 0) with 1. rewrite Z.mul_1_r.
  exists (div_nearest_even (100 * m * 2 ^ (- e)) (2 ^ E)), (- e).
  rewrite Z.opp_involutive.
  assert (Hpe : 0 < 2 ^ (- e)) by (apply Z.pow_pos_nonneg; lia).
  split; [reflexivity|]. split; [lia|]. split.
  - apply div_nearest_even_ge; [lia | nia].
  - apply div_nearest_even_error; [nia | lia].
Qed.

(** Two roundings of this size do not carry the integer part past the
    exact percentage, nor more than one below it. *)
Lemma truncation_bounds (c t m m' A B : Z) :
  1 <= t < 2 ^ 31 -> 0 <= c <= t ->
  2 ^ 52 <= A -> 2 ^ 46 <= B ->
  2 * Z.abs (m * t - c * A) <= t ->
  2 * Z.abs (m' * A - 100 * m * B) <= A ->
  (m' / B) * t <= 100 * c <= (m' / B + 1) * t.
Proof.
  intros Ht Hc HA HB H1 H2.
  assert (HB0 : 0 < B) by lia.
  pose proof (Z.mul_div_le m' B HB0) as Hs1.
  pose proof (Z.mul_succ_div_gt m' B HB0) as Hs2.
  set (s := m' / B) in *.
  assert (Hm1 : 2 * m * t <= 2 * c * A + t) by lia.
  assert (Hm2 : 2 * c * A - t <= 2 * m * t) by lia.
  assert (Hp1 : 2 * m' * A <= 200 * m * B + A) by lia.
  assert (Hp2 : 200 * m * B - A <= 2 * m' * A) by lia.
  change (2 ^ 31) with 2147483648 in *.
  change (2 ^ 52) with 4503599627370496 in *.
  change (2 ^ 46) with 70368744177664 in *.
  split.
  - destruct (Z.le_gt_cases (s * t) (100 * c)) as [|Hgt]; [assumption|exfalso].
    assert (E1 : (100 * c + 1) * B <= m' * t) by nia.
    assert (E2 : 2 * (m' * t) * A <= 100 * (2 * (m * t)) * B + A * t) by nia.
    assert (E3 : 100 * (2 * (m * t)) * B <= 100 * (2 * c * A + t) * B) by nia.
    assert (E4 : 2 * ((100 * c + 1) * B) * A <= 2 * (m' * t) * A) by nia.
    assert (E5 : 2 * A * B <= 100 * t * B + A * t) by nia.
    nia.
  - destruct (Z.le_gt_cases (100 * c) ((s + 1) * t)) as [|Hgt];
      [assumption|exfalso].
    assert (E0 : (m' + 1) * t <= (s + 1) * t * B) by nia.
    assert (E1 : m' * t <= (100 * c - 1) * B - t) by nia.
    assert (E2 : 100 * (2 * (m * t)) * B - A * t <= 2 * (m' * t) * A) by nia.
    assert (E3 : 100 * (2 * c * A - t) * B <= 100 * (2 * (m * t)) * B) by nia.
    assert (E4 : 2 * (m' * t) * A <= 2 * ((100 * c - 1) * B - t) * A) by nia.
    assert (E5 : 2 * A * B + t * A <= 100 * t * B) by nia.
    nia.
Qed.

(** For counts that fit the 32-bit columns, with [compliant] at most
    [total]: the score is computed, and it is the exact percentage with its
    fraction cut off, or one below a percentage that is a whole number. *)
Lemma percentage_truncated (compliant total : Z) :
  0 <= compliant <= total -> 0 < total < 2 ^ 31 ->
  exists score,
    percentage compliant total = Some score
    /\ 0 <= score
    /\ score * total <= 100 * compliant <= (score + 1) * total.
Proof.
  intros Hc Ht. unfold percentage.
  replace (total =? 0) with false by (symmetry; apply Z.eqb_neq; lia).
  rewrite (Z.abs_eq compliant), (Z.abs_eq total) by lia.
  destruct (Z.eq_dec compliant 0) as [->|Hne].
  - exists 0. split; [reflexivity | lia].
  - destruct (round64_quotient compliant total) as (m & E & -> & HE & Hm & H1);
      [lia | change (2 ^ 52) with 4503599627370496;
             change (2 ^ 31) with 2147483648 in Ht; lia |].
    destruct (round64_times_100 m E HE Hm) as (m' & E' & -> & HE' & Hm' & H2).
    replace (Z.max 0 (- E')) with 0 by lia.
    replace (Z.max 0 (- - E')) with E' by lia.
    change (2 ^ 0) with 1. rewrite Z.mul_1_r.
    replace (Z.sgn compliant) with 1 by (symmetry; apply Z.sgn_pos; lia).
    replace (Z.sgn total) with 1 by (symmetry; apply Z.sgn_pos; lia).
    rewrite !Z.mul_1_l.
    eexists. split; [reflexivity|]. split.
    + apply Z.div_pos; [exact Hm' | apply Z.pow_pos_nonneg; lia].
    + apply (truncation_bounds compliant total m m' (2 ^ E) (2 ^ E')); try lia.
      * apply Z.pow_le_mono_r; lia.
      * apply Z.pow_le_mono_r; lia.
Qed.

(** C4, as the code has it.  With [total_usage_count = 0] the score is 100
    and the level excellent.  Otherwise, for counts that fit their columns
    and [compliant_usage_count] at most [total_usage_count], the score is
    computed and lies between 0 and 100; it is the percentage with its
    fraction cut off, never rounded up: it is not above the exact
    percentage, which is at most one above it, and it is the integer part
    of the exact percentage whenever that is no whole number.  In every
    case the level follows from the score (at least 90 excellent, at least
    75 good, at least 50 warning, violation otherwise) and no other field
    is assigned. *)
Theorem calculate_score_spec (self : ComplianceStatus.t) :
  let total := ComplianceStatus.total_usage_count self in
  let compliant := ComplianceStatus.compliant_usage_count self in
  (total = 0 ->
     exists self', calculate_score self = Some self'
       /\ ComplianceStatus.compliance_score self' = 100
       /\ ComplianceStatus.compliance_level self' = "excellent")
  /\ (0 < total < 2 ^ 31 -> 0 <= compliant <= total ->
      exists self', calculate_score self = Some self'
        /\ let score := ComplianceStatus.compliance_score self' in
           0 <= score <= 100
           /\ score * total <= 100 * compliant <= (score + 1) * total
           /\ ((100 * compliant) mod total <> 0 ->
               score = 100 * compliant / total))
  /\ (forall self', calculate_score self = Some self' ->
      let s := ComplianceStatus.compliance_score self' in
      let level := ComplianceStatus.compliance_level self' in
      (90 <= s -> level = "excellent")
      /\ (75 <= s < 90 -> level = "good")
      /\ (50 <= s < 75 -> level = "warning")
      /\ (s < 50 -> level = "violation")
      /\ ComplianceStatus.set_score_level self s level = self').
Proof.
  cbv zeta. unfold calculate_score. split; [|split].
  - intros ->. cbn [Z.eqb]. eexists. split; [reflexivity|]. split; reflexivity.
  - intros Ht Hc.
    replace (ComplianceStatus.total_usage_count self =? 0) with false
      by (symmetry; apply Z.eqb_neq; lia).
    destruct (percentage_truncated _ _ Hc Ht) as (score & -> & H0 & Hlo & Hhi).
    eexists. split; [reflexivity|].
    cbn [ComplianceStatus.set_score_level ComplianceStatus.compliance_score].
    set (t := ComplianceStatus.total_usage_count self) in *.
    set (c := ComplianceStatus.compliant_usage_count self) in *.
    split; [split; [exact H0 | nia]|]. split; [split; assumption|].
    intros Hmod.
    pose proof (Z.div_mod (100 * c) t ltac:(lia)) as Hdm.
    pose proof (Z.mod_pos_bound (100 * c) t ltac:(lia)) as Hr.
    nia.
  - intros self'.
    destruct (if ComplianceStatus.total_usage_count self =? 0
              then Some 100
              else percentage (ComplianceStatus.compliant_usage_count self)
                              (ComplianceStatus.total_usage_count self))
      as [s|]; [|discriminate].
    intros [= <-].
    cbn [ComplianceStatus.set_score_level ComplianceStatus.compliance_score
         ComplianceStatus.compliance_level].
    destruct (level_of_score_cases s) as (H1 & H2 & H3 & H4).
    repeat split; assumption.
Qed.

(** Two compliant events of three: the score is 66, the integer part of
    66.67, and the level is warning. *)
Lemma calculate_score_spec_witness :
  exists self', calculate_score two_of_three = Some self'
    /\ ComplianceStatus.compliance_score self' = 66
    /\ ComplianceStatus.compliance_level self' = "warning".
Proof.
  destruct (calculate_score_spec two_of_three) as (_ & H & Hl).
  assert (Ht : 0 < ComplianceStatus.total_usage_count two_of_three < 2 ^ 31)
    by (vm_compute; split; reflexivity).
  assert (Hc : 0 <= ComplianceStatus.compliant_usage_count two_of_three
               <= ComplianceStatus.total_usage_count two_of_three)
    by (vm_compute; split; discriminate).
  destruct (H Ht Hc) as (self' & Hs & _ & _ & Hfloor).
  exists self'. split; [exact Hs|].
  assert (H66 : ComplianceStatus.compliance_score self' = 66)
    by (apply Hfloor; vm_compute; discriminate).
  split; [exact H66|].
  destruct (Hl self' Hs) as (_ & _ & Hw & _).
  apply Hw. rewrite H66. lia.
Defined.

(** ** Properties of the insight generator *)

(** What one run of the receiver appends to the insight table: the warning
    of the day, if it is due, then the milestone, if one is reached. *)
Lemma generate_usage_insights_added db now instance :
  let user := AIUsageLog.user instance in
  let today_usage := daily_count db user now in
  let total_usage := count (logs_of db user) in
  exists pk1 pk2,
    insights (generate_usage_insights db now instance true) =
    insights db
    ++ (if (50 <=? today_usage)
           && negb (warning_exists db user (midnight now))
        then [new_insight pk1 now user "warning" "High AI Usage Today"
                (warning_message today_usage) "high"]
        else [])
    ++ (if is_milestone total_usage
        then [new_insight pk2 now user "achievement"
                (milestone_title total_usage)
                (milestone_message total_usage) "medium"]
        else []).
Proof.
  cbv zeta. rewrite <- daily_count_query.
  unfold generate_usage_insights. cbn [negb].
  set (user := AIUsageLog.user instance).
  set (warn := (50 <=? count (logs_since db user (midnight now)))
               && negb (warning_exists db user (midnight now))).
  exists (next_pk (map UserInsight.id (insights db))).
  destruct warn.
  - set (db1 := create_insight db now user "warning" "High AI Usage Today" _ _).
    exists (next_pk (map UserInsight.id (insights db1))).
    change (logs_of db1 user) with (logs_of db user).
    destruct (is_milestone (count (logs_of db user)));
      unfold create_insight; cbn [insights with_insights].
    + subst db1. unfold create_insight. cbn [insights with_insights].
      now rewrite <- app_assoc.
    + subst db1. unfold create_insight. cbn [insights with_insights].
      now rewrite app_nil_r.
  - exists (next_pk (map UserInsight.id (insights db))).
    destruct (is_milestone (count (logs_of db user)));
      unfold create_insight; cbn [insights with_insights app].
    + reflexivity.
    + now rewrite app_nil_r.
Qed.

Lemma is_milestone_In (n : Z) : is_milestone n = true <-> In n milestones.
Proof.
  unfold is_milestone. rewrite existsb_exists. split.
  - intros (m & Hin & Heq). apply Z.eqb_eq in Heq. now subst.
  - intros Hin. exists n. split; [assumption | apply Z.eqb_refl].
Qed.

Lemma milestone_title_contains (n : Z) : contains (str_int n) (milestone_title n).
Proof. exists "Milestone: ", " AI Interactions!". reflexivity. Qed.

(** What a creation appends to the insight table, in terms of the store
    before it. *)
Lemma create_insights db now self :
  let user := AIUsageLog.user self in
  let db' := fst (create db now self) in
  exists pk1 pk2,
    insights db' =
    insights db
    ++ (if (50 <=? daily_count db' user now)
           && negb (warning_exists db user (midnight now))
        then [new_insight pk1 now user "warning" "High AI Usage Today"
                (warning_message (daily_count db' user now)) "high"]
        else [])
    ++ (if is_milestone (all_time_count db' user)
        then [new_insight pk2 now user "achievement"
                (milestone_title (all_time_count db' user))
                (milestone_message (all_time_count db' user)) "medium"]
        else []).
Proof.
  cbv zeta.
  destruct (create_row_fields db now self) as (Hu & _).
  pose proof (create_usage_logs db now self) as Hlogs.
  rewrite create_inserts in *. cbn [fst snd] in *.
  set (row := AIUsageLog.set_inserted _ _ _) in *.
  set (mid := with_usage_logs db (usage_logs db ++ [row])) in *.
  destruct (generate_usage_insights_added mid now row) as (pk1 & pk2 & H).
  exists pk1, pk2. rewrite H, Hu, count_logs_of_events.
  unfold daily_count, events_since, all_time_count, events_of.
  rewrite generate_usage_insights_logs. reflexivity.
Qed.

(** The row a creation stores is among the user's events. *)
Lemma create_all_time_count db now self :
  all_time_count (fst (create db now self)) (AIUsageLog.user self)
  = all_time_count db (AIUsageLog.user self) + 1.
Proof.
  unfold all_time_count, events_of.
  rewrite create_usage_logs, filter_app, length_app.
  destruct (create_row_fields db now self) as (Hu & _).
  cbn [filter]. rewrite Hu, Z.eqb_refl. cbn [List.length]. lia.
Qed.

(** C6. A creation raises the number of the user's stored events by one.
    When it brings that number to one of 10, 50, 100, 250, 500 and 1000,
    the insights it adds hold exactly one achievement: for that user, of
    medium priority, with the number in its title.  At any other count it
    adds no achievement. *)
Theorem milestone_achievement (db : Database) (now : datetime)
    (self : AIUsageLog.t) :
  let user := AIUsageLog.user self in
  let db' := fst (create db now self) in
  let total := all_time_count db' user in
  total = all_time_count db user + 1
  /\ exists added,
       insights db' = insights db ++ added
       /\ (In total [10; 50; 100; 250; 500; 1000] ->
           exists i, filter is_achievement added = [i]
             /\ UserInsight.user i = user
             /\ UserInsight.insight_type i = "achievement"
             /\ UserInsight.priority i = "medium"
             /\ contains (str_int total) (UserInsight.title i))
       /\ (~ In total [10; 50; 100; 250; 500; 1000] ->
           filter is_achievement added = []).
Proof.
  cbv zeta. split; [apply create_all_time_count|].
  destruct (create_insights db now self) as (pk1 & pk2 & H).
  cbv zeta in H. eexists. split; [exact H|].
  rewrite filter_app.
  set (total := all_time_count (fst (create db now self))
                               (AIUsageLog.user self)) in *.
  assert (Hw : forall b w, is_warning w = true ->
               filter is_achievement (if b : bool then [w] else [])
               = ([] : list UserInsight.t)).
  { intros [|] w Hw'; [|reflexivity]. cbn [filter].
    unfold is_warning in Hw'. apply String.eqb_eq in Hw'.
    unfold is_achievement. now rewrite Hw'. }
  rewrite Hw by reflexivity. cbn [app].
  split.
  - intros Hin. apply (proj2 (is_milestone_In total)) in Hin. rewrite Hin.
    eexists. split; [reflexivity|].
    split; [reflexivity|]. split; [reflexivity|]. split; [reflexivity|].
    apply milestone_title_contains.
  - intros Hnot.
    destruct (is_milestone total) eqn:Hm; [|reflexivity].
    apply is_milestone_In in Hm. contradiction.
Qed.

(** In the store where user 7 has nine events and user 8 seven, sixteen in
    all: the next event of user 7 is the tenth and brings the achievement
    with 10 in its title, the next event of user 8 brings none. *)
Lemma milestone_achievement_witness :
  (exists added i,
     insights (fst (create db_mixed9 (t0 + 30) (test_log 7)))
     = insights db_mixed9 ++ added
     /\ filter is_achievement added = [i]
     /\ UserInsight.user i = 7
     /\ contains "10" (UserInsight.title i))
  /\ (exists added,
       insights (fst (create db_mixed9 (t0 + 30) (test_log 8)))
       = insights db_mixed9 ++ added
       /\ filter is_achievement added = []).
Proof.
  split.
  - destruct (milestone_achievement db_mixed9 (t0 + 30) (test_log 7))
      as (_ & added & Hadd & Hm & _).
    assert (Ht : all_time_count (fst (create db_mixed9 (t0 + 30) (test_log 7)))
                   (AIUsageLog.user (test_log 7)) = 10)
      by (vm_compute; reflexivity).
    rewrite Ht in Hm.
    assert (Hin : In 10 [10; 50; 100; 250; 500; 1000]) by (now left).
    destruct (Hm Hin) as (i & Hf & Hu & _ & _ & Hc).
    exists added, i. split; [exact Hadd|]. split; [exact Hf|].
    split; [exact Hu | exact Hc].
  - destruct (milestone_achievement db_mixed9 (t0 + 30) (test_log 8))
      as (_ & added & Hadd & _ & Hn).
    assert (Ht : all_time_count (fst (create db_mixed9 (t0 + 30) (test_log 8)))
                   (AIUsageLog.user (test_log 8)) = 8)
      by (vm_compute; reflexivity).
    rewrite Ht in Hn.
    exists added. split; [exact Hadd|]. apply Hn.
    cbn [In]. intros H.
    repeat (destruct H as [H|H]; [discriminate H|]). exact H.
Defined.

(** *** The warning of the day *)

Lemma existsb_false_filter {A} (f : A -> bool) (l : list A) :
  existsb f l = false -> filter f l = [].
Proof.
  induction l as [|x l IH]; cbn [existsb filter]; [reflexivity|].
  intros H. apply orb_false_elim in H as (Hx & Hl).
  rewrite Hx. now apply IH.
Qed.

Lemma filter_existsb {A} (f : A -> bool) (l : list A) :
  filter f l <> [] -> existsb f l = true.
Proof.
  intros H. destruct (existsb f l) eqn:He; [reflexivity|].
  now apply existsb_false_filter in He.
Qed.

(** The query of the receiver finds a row exactly when the user has a
    warning generated since then. *)
Lemma warnings_since_query db user since :
  warnings_since db user since = filter (warning_since user since) (insights db).
Proof. reflexivity. Qed.

Lemma warning_exists_false db user since :
  warning_exists db user since = false -> warnings_since db user since = [].
Proof.
  intros H. rewrite warnings_since_query. now apply existsb_false_filter.
Qed.

Lemma warning_exists_true db user since :
  warnings_since db user since <> [] -> warning_exists db user since = true.
Proof.
  rewrite warnings_since_query. apply filter_existsb.
Qed.

Lemma warning_since_new_warning u since pk now v title message priority :
  warning_since u since
    (new_insight pk now v "warning" title message priority)
  = (v =? u) && (since <=? now).
Proof.
  unfold warning_since, new_insight.
  cbn [UserInsight.user UserInsight.insight_type UserInsight.generated_at].
  now rewrite String.eqb_refl, andb_true_r.
Qed.

Lemma warning_since_new_achievement u since pk now v title message priority :
  warning_since u since
    (new_insight pk now v "achievement" title message priority)
  = false.
Proof.
  unfold warning_since, new_insight.
  cbn [UserInsight.user UserInsight.insight_type UserInsight.generated_at].
  replace (String.eqb "achievement" "warning") with false by reflexivity.
  now rewrite andb_false_r.
Qed.

(** One creation on the day that starts at [d0] leaves the number of the
    day's warnings of a user as it is, or takes it from zero to one. *)
Lemma create_warnings_since db now self u d0 :
  start_of_day now = d0 ->
  Z.of_nat (List.length (warnings_since (fst (create db now self)) u d0))
  <= Z.max 1 (Z.of_nat (List.length (warnings_since db u d0))).
Proof.
  intros Hd0.
  destruct (create_insights db now self) as (pk1 & pk2 & H).
  cbv zeta in H. rewrite !warnings_since_query, H, !filter_app, !length_app.
  set (v := AIUsageLog.user self) in *.
  assert (Ha : forall b a, a = new_insight pk2 now v "achievement"
                 (milestone_title (all_time_count (fst (create db now self)) v))
                 (milestone_message (all_time_count (fst (create db now self)) v))
                 "medium" ->
               List.length (filter (warning_since u d0)
                              (if b : bool then [a] else []))
               = 0%nat).
  { intros [|] a ->; [|reflexivity].
    cbn [filter]. now rewrite warning_since_new_achievement. }
  rewrite (Ha _ _ eq_refl), Nat.add_0_r.
  destruct ((50 <=? daily_count (fst (create db now self)) v now)
            && negb (warning_exists db v (midnight now))) eqn:Hw.
  - apply andb_prop in Hw as (_ & Hex).
    apply negb_true_iff in Hex.
    cbn [filter]. rewrite warning_since_new_warning.
    destruct (Z.eqb_spec v u) as [->|Hne]; cbn [andb].
    + rewrite midnight_start_of_day, Hd0 in Hex.
      apply warning_exists_false in Hex.
      rewrite warnings_since_query in Hex. rewrite Hex.
      destruct (d0 <=? now); cbn [List.length]; lia.
    + cbn [List.length]. lia.
  - cbn [filter List.length]. lia.
Qed.

Lemma create_all_warnings_since db events u d0 :
  Forall (fun e => start_of_day (fst e) = d0) events ->
  Z.of_nat (List.length (warnings_since (create_all db events) u d0))
  <= Z.max 1 (Z.of_nat (List.length (warnings_since db u d0))).
Proof.
  intros Hall. revert db.
  induction Hall as [|[now self] rest Hnow _ IH]; intros db;
    cbn [create_all]; [lia|].
  specialize (IH (fst (create db now self))).
  pose proof (create_warnings_since db now self u d0 Hnow). lia.
Qed.

(** C7. In one run of the receiver on a new event, the warnings it adds are
    one high-priority warning for the user when the user has at least 50
    stored events since midnight and no stored warning generated since
    midnight, and none when the user has such a warning or fewer than 50
    events.  Over any sequence of creations that fall on one day, whoever
    their users are, a user who had no warning that day ends with at most
    one, and a user who had some gets no more. *)
Theorem warning_once_per_day :
  (forall db now instance,
     let user := AIUsageLog.user instance in
     exists added,
       insights (generate_usage_insights db now instance true)
       = insights db ++ added
       /\ (50 <= daily_count db user now ->
           warnings_since db user (start_of_day now) = [] ->
           exists w, filter is_warning added = [w]
             /\ UserInsight.user w = user
             /\ UserInsight.priority w = "high"
             /\ UserInsight.generated_at w = now)
       /\ (warnings_since db user (start_of_day now) <> [] ->
           filter is_warning added = [])
       /\ (daily_count db user now < 50 -> filter is_warning added = []))
  /\ (forall db events u d0,
       Forall (fun e => start_of_day (fst e) = d0) events ->
       Z.of_nat (List.length (warnings_since (create_all db events) u d0))
       <= Z.max 1 (Z.of_nat (List.length (warnings_since db u d0)))).
Proof.
  split; [|exact create_all_warnings_since].
  intros db now instance. cbv zeta.
  destruct (generate_usage_insights_added db now instance) as (pk1 & pk2 & H).
  cbv zeta in H. eexists. split; [exact H|].
  set (user := AIUsageLog.user instance) in *.
  rewrite filter_app.
  assert (Ha : forall b a, UserInsight.insight_type a = "achievement" ->
               filter is_warning (if b : bool then [a] else [])
               = ([] : list UserInsight.t)).
  { intros [|] a Ht; [|reflexivity].
    cbn [filter]. unfold is_warning. now rewrite Ht. }
  rewrite (Ha (is_milestone _)) by reflexivity. rewrite app_nil_r.
  rewrite midnight_start_of_day.
  split; [|split].
  - intros H50 Hnone.
    apply Z.leb_le in H50. rewrite H50.
    destruct (warning_exists db user (start_of_day now)) eqn:He.
    + unfold warning_exists in He.
      apply existsb_exists in He as (x & Hin & Hx).
      assert (Hin' : In x (warnings_since db user (start_of_day now)))
        by (rewrite warnings_since_query; apply filter_In; now split).
      rewrite Hnone in Hin'. contradiction.
    + cbn [negb andb]. eexists. split; [reflexivity|].
      split; [reflexivity|]. split; reflexivity.
  - intros Hsome. apply warning_exists_true in Hsome.
    rewrite Hsome. now rewrite andb_false_r.
  - intros Hlt. apply Z.leb_gt in Hlt. rewrite Hlt. reflexivity.
Qed.

(** The busy day of two users: user 8 has logged fifty-two events and has
    the warning of the day, then user 7 logs fifty-two; user 7 ends the
    day with at most one warning. *)
Lemma warning_once_per_day_witness :
  Z.of_nat (List.length (warnings_since db_busy 7 (start_of_day t0))) <= 1.
Proof.
  destruct warning_once_per_day as (_ & H).
  assert (Hall : Forall (fun e => start_of_day (fst e) = start_of_day t0)
                        (events_from 7 (t0 + 100) 52)).
  { apply Forall_forall. intros e He.
    assert (Hb : forallb (fun e => start_of_day (fst e) =? start_of_day t0)
                         (events_from 7 (t0 + 100) 52) = true)
      by (vm_compute; reflexivity).
    rewrite forallb_forall in Hb. apply Z.eqb_eq. now apply Hb. }
  pose proof (H db_busy8 (events_from 7 (t0 + 100) 52) 7 (start_of_day t0)
                Hall) as Hle.
  assert (H0 : warnings_since db_busy8 7 (start_of_day t0) = [])
    by (vm_compute; reflexivity).
  rewrite H0 in Hle. exact Hle.
Defined.

(** That day ends with one warning for each of the two users, created by
    the fiftieth event of each; the warning of user 8 did not stand in the
    way of the one of user 7. *)
Example one_warning_for_each_user :
  map UserInsight.title (warnings_since db_busy 7 (start_of_day t0))
  = ["High AI Usage Today"]
  /\ map UserInsight.title (warnings_since db_busy 8 (start_of_day t0))
     = ["High AI Usage Today"]
  /\ warnings_since (create_all db_busy8 (events_from 7 (t0 + 100) 49)) 7
                    (start_of_day t0) = []
  /\ List.length (warnings_since
                    (create_all db_busy8 (events_from 7 (t0 + 100) 50)) 7
                    (start_of_day t0)) = 1%nat.
Proof. vm_compute. repeat split. Qed.

(** The busy day of one user ends with one warning, created by the
    fiftieth event. *)
Example one_warning_after_sixty_events :
  map UserInsight.title (warnings_since db60 7 (start_of_day t0))
  = ["High AI Usage Today"]
  /\ warnings_since (create_all db0 (events_from 7 t0 49)) 7 (start_of_day t0)
     = []
  /\ List.length (warnings_since (create_all db0 (events_from 7 t0 50)) 7
                                 (start_of_day t0)) = 1%nat.
Proof. vm_compute. repeat split. Qed.

(** ** Properties of the insight views *)

Lemma In_insert_ordered a x l :
  In x (insert_ordered a l) <-> x = a \/ In x l.
Proof.
  induction l as [|b l IH]; cbn [insert_ordered In].
  - intuition.
  - destruct (precedes a b); cbn [In]; rewrite ?IH; intuition.
Qed.

Lemma In_order_by x l : In x (order_by l) <-> In x l.
Proof.
  unfold order_by. induction l as [|a l IH]; cbn [fold_right In].
  - tauto.
  - rewrite In_insert_ordered, IH. intuition.
Qed.

Lemma In_insights_listing db u i :
  In i (insights_listing db u) <->
  In i (insights db) /\ UserInsight.user i = u
  /\ UserInsight.is_dismissed i = false.
Proof.
  unfold insights_listing. rewrite In_order_by, filter_In.
  rewrite andb_true_iff, negb_true_iff, Z.eqb_eq. tauto.
Qed.

Lemma Forall2_map_same {A} (R : A -> A -> Prop) (f : A -> A) (l : list A) :
  (forall x, R x (f x)) -> Forall2 R l (map f l).
Proof. intros H. induction l; cbn [map]; constructor; auto. Qed.

Lemma set_is_read_same (i : UserInsight.t) :
  UserInsight.set_is_read i (UserInsight.is_read i) = i.
Proof. destruct i; reflexivity. Qed.

(** C10. Listing the insights marks as read every insight of the
    requesting user that is not dismissed: afterwards none of them is
    unread, in the table and on the page.  Row by row, the insight table
    after the view differs from the one before in [is_read] at most, and
    rows of other users and dismissed rows are as they were; the other
    tables are untouched. *)
Theorem insights_view_marks_read (db : Database) (request_user : Z) :
  let db' := fst (insights_view db request_user) in
  let listing := snd (insights_view db request_user) in
  (forall i, In i (insights db') ->
     UserInsight.user i = request_user ->
     UserInsight.is_dismissed i = false ->
     UserInsight.is_read i = true)
  /\ (forall i, In i listing -> UserInsight.is_read i = true)
  /\ Forall2
       (fun old new =>
          UserInsight.set_is_read old (UserInsight.is_read new) = new
          /\ (~ (UserInsight.user old = request_user
                 /\ UserInsight.is_dismissed old = false) -> new = old))
       (insights db) (insights db')
  /\ (users db', profiles db', policies db', usage_logs db', feedback db')
     = (users db, profiles db, policies db, usage_logs db, feedback db).
Proof.
  cbv zeta. unfold insights_view. cbn [fst snd].
  assert (Hread : forall i, In i (insights (mark_listed_read db request_user)) ->
                  UserInsight.user i = request_user ->
                  UserInsight.is_dismissed i = false ->
                  UserInsight.is_read i = true).
  { unfold mark_listed_read. cbn [insights with_insights].
    intros i Hin Hu Hd. apply in_map_iff in Hin as (old & <- & _).
    destruct ((UserInsight.user old =? request_user)
              && negb (UserInsight.is_dismissed old)
              && negb (UserInsight.is_read old)) eqn:Hc; [reflexivity|].
    rewrite Hd in Hc. apply Z.eqb_eq in Hu. rewrite Hu in Hc.
    cbn [negb andb] in Hc. now apply negb_false_iff in Hc. }
  split; [exact Hread|]. split; [|split].
  - intros i Hin. apply In_insights_listing in Hin as (Hin & Hu & Hd).
    now apply Hread.
  - unfold mark_listed_read. cbn [insights with_insights].
    apply Forall2_map_same. intros old.
    destruct ((UserInsight.user old =? request_user)
              && negb (UserInsight.is_dismissed old)
              && negb (UserInsight.is_read old)) eqn:Hc.
    + split; [reflexivity|]. intros Hn. exfalso. apply Hn.
      apply andb_prop in Hc as (Hc & _). apply andb_prop in Hc as (Hu & Hd).
      apply Z.eqb_eq in Hu. apply negb_true_iff in Hd. now split.
    + split; [apply set_is_read_same | reflexivity].
  - reflexivity.
Qed.

Lemma insights_view_marks_read_witness :
  UserInsight.is_read insight_a = false
  /\ forall i, In i (snd (insights_view db_ab 7)) -> UserInsight.is_read i = true.
Proof.
  split; [reflexivity|].
  destruct (insights_view_marks_read db_ab 7) as (_ & H & _). exact H.
Defined.

(** Another user's unread insight stays unread. *)
Example insights_view_other_user :
  insights (fst (insights_view db_ab 7))
  = [UserInsight.set_is_read insight_a true; insight_b].
Proof. vm_compute. reflexivity. Qed.

(** *** Dismissing *)

Lemma next_pk_gt (pks : list (option Z)) (j : Z) :
  In (Some j) pks -> j < next_pk pks.
Proof.
  unfold next_pk. induction pks as [|pk pks IH]; cbn [In fold_right].
  - contradiction.
  - intros [->|Hin].
    + lia.
    + specialize (IH Hin). destruct pk; lia.
Qed.

Lemma has_pk_eq pk row_pk : has_pk pk row_pk = true <-> row_pk = Some pk.
Proof.
  unfold has_pk. destruct row_pk as [k|].
  - rewrite Z.eqb_eq. split; [now intros -> | now intros [= ->]].
  - split; discriminate.
Qed.

Lemma create_insight_dismissed_for_good k db now u ty ti me pr :
  dismissed_for_good k db ->
  dismissed_for_good k (create_insight db now u ty ti me pr).
Proof.
  intros ((row & Hin & Hpk) & Hall).
  unfold dismissed_for_good, create_insight. cbn [insights with_insights].
  split.
  - exists row. split; [apply in_or_app; now left | assumption].
  - intros r Hr Hk. apply in_app_or in Hr as [Hr|[<-|[]]].
    + now apply Hall.
    + exfalso. unfold new_insight in Hk. cbn [UserInsight.id] in Hk.
      apply has_pk_eq in Hk. injection Hk as Hk.
      apply has_pk_eq in Hpk.
      assert (Hlt : k < next_pk (map UserInsight.id (insights db))).
      { apply next_pk_gt. rewrite <- Hpk. now apply in_map. }
      lia.
Qed.

Lemma generate_usage_insights_dismissed_for_good k db now instance created :
  dismissed_for_good k db ->
  dismissed_for_good k (generate_usage_insights db now instance created).
Proof.
  intros H. unfold generate_usage_insights.
  destruct created; cbn [negb]; [|assumption].
  repeat match goal with
         | |- context [if ?c then _ else _] => destruct c
         end;
    repeat apply create_insight_dismissed_for_good; assumption.
Qed.

Lemma Model_save_insights db now self :
  insights (fst (fst (Model_save db now self))) = insights db.
Proof.
  unfold Model_save.
  destruct (AIUsageLog.id self) as [pk|];
    [destruct (existsb _ (usage_logs db))|]; reflexivity.
Qed.

Lemma save_dismissed_for_good k db now self :
  dismissed_for_good k db -> dismissed_for_good k (fst (save db now self)).
Proof.
  intros H. rewrite save_unfold. cbn [fst].
  apply generate_usage_insights_dismissed_for_good.
  unfold dismissed_for_good. rewrite Model_save_insights. exact H.
Qed.

Lemma mark_listed_read_dismissed_for_good k db u :
  dismissed_for_good k db -> dismissed_for_good k (mark_listed_read db u).
Proof.
  intros ((row & Hin & Hpk) & Hall).
  unfold dismissed_for_good, mark_listed_read. cbn [insights with_insights].
  split.
  - eexists. split; [apply in_map; exact Hin|].
    destruct (_ && _); assumption.
  - intros r Hr Hk. apply in_map_iff in Hr as (old & <- & Hold).
    destruct (_ && _) in *;
      cbn [UserInsight.set_is_read UserInsight.is_dismissed UserInsight.id]
        in *;
      now apply (Hall old).
Qed.

Lemma find_get_insight db k u insight :
  get_insight db k u = Some insight ->
  In insight (insights db)
  /\ UserInsight.id insight = Some k
  /\ UserInsight.user insight = u.
Proof.
  unfold get_insight. intros H. apply find_some in H as (Hin & Hc).
  apply andb_prop in Hc as (Hk & Hu).
  apply has_pk_eq in Hk. apply Z.eqb_eq in Hu. now repeat split.
Qed.

Lemma dismiss_dismissed_for_good k db u j :
  dismissed_for_good k db ->
  dismissed_for_good k (fst (dismiss_insight_view db u j)).
Proof.
  intros ((row & Hin & Hpk) & Hall). unfold dismiss_insight_view.
  destruct (get_insight db j u) as [insight|] eqn:Hg; cbn [fst].
  - destruct (find_get_insight _ _ _ _ Hg) as (_ & Hid & _).
    unfold dismissed_for_good, save_insight. cbn [insights with_insights].
    split.
    + eexists. split; [apply in_map; exact Hin|].
      destruct (has_pk j (UserInsight.id row)) eqn:Hj; [|assumption].
      apply has_pk_eq in Hj, Hpk. rewrite Hpk in Hj. injection Hj as ->.
      apply has_pk_eq. exact Hid.
    + intros r Hr Hk. apply in_map_iff in Hr as (old & <- & Hold).
      destruct (has_pk j (UserInsight.id old)); [reflexivity|].
      now apply Hall.
  - split; [now exists row | assumption].
Qed.

Lemma handle_dismissed_for_good k db r :
  dismissed_for_good k db -> dismissed_for_good k (handle db r).
Proof.
  intros H. destruct r as [now self|now self|u|u j|p]; cbn [handle].
  - unfold create. now apply save_dismissed_for_good.
  - now apply save_dismissed_for_good.
  - unfold insights_view. cbn [fst].
    now apply mark_listed_read_dismissed_for_good.
  - now apply dismiss_dismissed_for_good.
  - exact H.
Qed.

Lemma handle_all_dismissed_for_good k rs db :
  dismissed_for_good k db -> dismissed_for_good k (handle_all db rs).
Proof.
  unfold handle_all. revert db.
  induction rs as [|r rs IH]; intros db H; cbn [fold_left]; [assumption|].
  apply IH. now apply handle_dismissed_for_good.
Qed.

Lemma dismiss_found db u k insight :
  get_insight db k u = Some insight ->
  dismiss_insight_view db u k
  = (save_insight db k (UserInsight.set_is_dismissed insight true),
     HttpResponseRedirect "dashboard:insights").
Proof. unfold dismiss_insight_view. now intros ->. Qed.

(** C9. When the requesting user owns an insight with the given key, the
    view redirects, every stored insight with that key is afterwards the
    one found with [is_dismissed] set, and no listing contains an insight
    with that key, neither right away nor after any further requests.  When
    no insight with that key belongs to the requesting user, whether none
    exists or it is another user's, the answer is a 404 and the store is
    unchanged. *)
Theorem dismiss_insight_spec (db : Database) (request_user insight_id : Z) :
  (forall insight,
     get_insight db insight_id request_user = Some insight ->
     let db' := fst (dismiss_insight_view db request_user insight_id) in
     snd (dismiss_insight_view db request_user insight_id)
     = HttpResponseRedirect "dashboard:insights"
     /\ In (UserInsight.set_is_dismissed insight true) (insights db')
     /\ (forall row, In row (insights db') ->
         has_pk insight_id (UserInsight.id row) = true ->
         row = UserInsight.set_is_dismissed insight true)
     /\ (forall rs user row,
         In row (insights_listing (handle_all db' rs) user) ->
         has_pk insight_id (UserInsight.id row) = false))
  /\ ((forall row, In row (insights db) ->
       has_pk insight_id (UserInsight.id row) = true ->
       UserInsight.user row <> request_user) ->
      dismiss_insight_view db request_user insight_id = (db, Http404)).
Proof.
  split.
  - intros insight Hg. cbv zeta. rewrite (dismiss_found _ _ _ _ Hg).
    cbn [fst snd].
    destruct (find_get_insight _ _ _ _ Hg) as (Hin & Hid & Hu).
    assert (Hrows : forall row,
              In row (insights (save_insight db insight_id
                         (UserInsight.set_is_dismissed insight true))) ->
              has_pk insight_id (UserInsight.id row) = true ->
              row = UserInsight.set_is_dismissed insight true).
    { unfold save_insight. cbn [insights with_insights].
      intros row Hr Hk. apply in_map_iff in Hr as (old & <- & Hold).
      destruct (has_pk insight_id (UserInsight.id old)) eqn:Ho;
        [reflexivity | congruence]. }
    assert (Hstored : In (UserInsight.set_is_dismissed insight true)
                         (insights (save_insight db insight_id
                            (UserInsight.set_is_dismissed insight true)))).
    { unfold save_insight. cbn [insights with_insights].
      apply in_map_iff. exists insight. split; [|exact Hin].
      now rewrite (proj2 (has_pk_eq _ _) Hid). }
    split; [reflexivity|]. split; [exact Hstored|]. split; [exact Hrows|].
    intros rs user row Hrow.
    assert (Hinv : dismissed_for_good insight_id
                     (save_insight db insight_id
                        (UserInsight.set_is_dismissed insight true))).
    { split.
      - eexists. split; [exact Hstored|]. apply has_pk_eq. exact Hid.
      - intros r Hr Hk. now rewrite (Hrows r Hr Hk). }
    apply (handle_all_dismissed_for_good _ rs) in Hinv.
    apply In_insights_listing in Hrow as (Hr & _ & Hd).
    destruct (has_pk insight_id (UserInsight.id row)) eqn:Hk; [|reflexivity].
    destruct Hinv as (_ & Hall). rewrite (Hall row Hr Hk) in Hd. discriminate.
  - intros Hnone. unfold dismiss_insight_view.
    destruct (get_insight db insight_id request_user) as [insight|] eqn:Hg;
      [|reflexivity].
    destruct (find_get_insight _ _ _ _ Hg) as (Hin & Hid & Hu).
    exfalso. apply (Hnone insight Hin); [|exact Hu].
    apply has_pk_eq. exact Hid.
Qed.

Lemma dismiss_insight_spec_witness :
  (forall user row,
     In row (insights_listing (fst (dismiss_insight_view db_ab 7 1)) user) ->
     has_pk 1 (UserInsight.id row) = false)
  /\ dismiss_insight_view db_ab 7 2 = (db_ab, Http404).
Proof.
  split.
  - destruct (dismiss_insight_spec db_ab 7 1) as (H & _).
    destruct (H insight_a eq_refl) as (_ & _ & _ & Hl).
    intros user row. exact (Hl [] user row).
  - destruct (dismiss_insight_spec db_ab 7 2) as (_ & H).
    apply H. intros row Hin Hk.
    destruct Hin as [<-|[<-|[]]]; [discriminate Hk|].
    vm_compute. discriminate.
Defined.

(** Dismissing an insight of user 8 as user 7 is refused, as is a key that
    does not exist. *)
Example dismiss_not_found :
  dismiss_insight_view db_ab 7 2 = (db_ab, Http404)
  /\ dismiss_insight_view db_ab 7 3 = (db_ab, Http404).
Proof. split; reflexivity. Qed.

(** ** Properties of the data export *)

Section DataExportProperties.

Variable isoformat_date : date -> string.
Variable isoformat : datetime -> string.
Variable str_datetime : datetime -> string.

Lemma profile_of_owner db user profile :
  profile_of db user = Some profile ->
  In profile (profiles db) /\ UserProfile.user profile = User.id user.
Proof.
  unfold profile_of. intros H. apply find_some in H as (Hin & Hu).
  apply Z.eqb_eq in Hu. now split.
Qed.

Lemma In_filter_owner {A} (owner : A -> Z) (u : Z) (l : list A) (row : A) :
  In row (filter (fun r => owner r =? u) l) <-> In row l /\ owner row = u.
Proof. rewrite filter_In, Z.eqb_eq. tauto. Qed.

(** C8. The export of a user who has a profile is an object with the keys
    user, profile, usage_logs, insights and feedback, in this order and no
    other.  Its profile is the requesting user's, and the rows behind the
    three lists are exactly the rows of the usage-log, insight and feedback
    tables that the requesting user owns.  The export is the same in any
    two stores that agree on the requesting user's profile and rows,
    whatever they hold for other users. *)
Theorem export_only_own_records (db : Database) (user : User.t) :
  (forall profile,
     profile_of db user = Some profile ->
     UserProfile.user profile = User.id user
     /\ exists logs ins fb,
          export_data_view isoformat_date isoformat str_datetime db user
          = Some (JDict
              [("user", user_fields isoformat user);
               ("profile", profile_fields isoformat_date isoformat profile);
               ("usage_logs", JList (map (log_values str_datetime) logs));
               ("insights", JList (map (insight_values str_datetime) ins));
               ("feedback", JList (map (feedback_values str_datetime) fb))])
          /\ (forall row, In row logs <->
                 In row (usage_logs db)
                 /\ AIUsageLog.user row = User.id user)
          /\ (forall row, In row ins <->
                 In row (insights db)
                 /\ UserInsight.user row = User.id user)
          /\ (forall row, In row fb <->
                 In row (feedback db)
                 /\ UserFeedback.user row = User.id user))
  /\ (forall db2,
       profile_of db2 user = profile_of db user ->
       logs_of db2 (User.id user) = logs_of db (User.id user) ->
       insights_of db2 (User.id user) = insights_of db (User.id user) ->
       feedback_of db2 (User.id user) = feedback_of db (User.id user) ->
       export_data_view isoformat_date isoformat str_datetime db2 user
       = export_data_view isoformat_date isoformat str_datetime db user)
  /\ (forall j,
       export_data_view isoformat_date isoformat str_datetime db user = Some j ->
       exists entries,
         j = JDict entries
         /\ map fst entries
            = ["user"; "profile"; "usage_logs"; "insights"; "feedback"]).
Proof.
  split; [|split].
  - intros profile Hp.
    split; [now apply (profile_of_owner db)|].
    exists (sort_by newest_first (logs_of db (User.id user))),
           (order_by (insights_of db (User.id user))),
           (sort_by newest_feedback_first (feedback_of db (User.id user))).
    split; [unfold export_data_view; now rewrite Hp|].
    unfold logs_of, insights_of, feedback_of.
    split; [|split]; intros row;
      rewrite ?In_sort_by, ?In_order_by; apply In_filter_owner.
  - intros db2 Hp Hl Hi Hf. unfold export_data_view.
    now rewrite Hp, Hl, Hi, Hf.
  - intros j. unfold export_data_view.
    destruct (profile_of db user); [|discriminate].
    intros [= <-]. eexists. split; reflexivity.
Qed.

End DataExportProperties.

Lemma export_only_own_records_witness :
  export_data_view str_int str_int str_int db_export alice
  = export_data_view str_int str_int str_int db_export_alone alice.
Proof.
  destruct (export_only_own_records str_int str_int str_int db_export_alone
              alice) as (_ & H & _).
  apply H; reflexivity.
Defined.

(** Without a profile there is no export. *)
Example export_without_profile :
  export_data_view str_int str_int str_int db0 alice = None.
Proof. reflexivity. Qed.

(** * Further properties *)

(** ** The active policy of the views *)

Lemma policy_in_effect_is_active (p : AIEthicsPolicy.t) (now : datetime) :
  policy_in_effect (date_of now) p = AIEthicsPolicy.is_active p now.
Proof.
  unfold policy_in_effect, AIEthicsPolicy.is_active.
  destruct (String.eqb (AIEthicsPolicy.status p) "active"); cbn [negb andb];
    [|reflexivity].
  rewrite (Z.leb_antisym (date_of now) (AIEthicsPolicy.effective_from p)).
  destruct (date_of now <? AIEthicsPolicy.effective_from p); cbn [negb andb];
    [reflexivity|].
  destruct (AIEthicsPolicy.effective_until p) as [until|]; [|reflexivity].
  rewrite (Z.leb_antisym until (date_of now)).
  destruct (until <? date_of now); reflexivity.
Qed.

Lemma hd_error_None {A} (l : list A) : hd_error l = None <-> l = [].
Proof. destruct l; split; intros H; try reflexivity; discriminate H. Qed.

Lemma hd_error_In {A} (l : list A) (a : A) : hd_error l = Some a -> In a l.
Proof. destruct l; [discriminate|]. intros [= ->]. now left. Qed.

(** X1. The query by which the views look up the active policy selects
    exactly the policies of the table for which [is_active] holds; the
    policy it returns is one of them, and it returns none exactly when no
    policy of the table is active. *)
Theorem active_policy_query_agrees (db : Database) (now : datetime) :
  (forall p, In p (active_policies db now) <->
             In p (policies db) /\ AIEthicsPolicy.is_active p now = true)
  /\ (forall p, first_active_policy db now = Some p ->
                In p (policies db) /\ AIEthicsPolicy.is_active p now = true)
  /\ (first_active_policy db now = None <->
      forall p, In p (policies db) -> AIEthicsPolicy.is_active p now = false).
Proof.
  assert (Hin : forall p, In p (active_policies db now) <->
                  In p (policies db) /\ AIEthicsPolicy.is_active p now = true).
  { intros p. unfold active_policies.
    now rewrite filter_In, policy_in_effect_is_active. }
  split; [exact Hin|]. split.
  - intros p Hp. apply Hin. unfold first_active_policy in Hp.
    apply hd_error_In in Hp. now apply In_sort_by in Hp.
  - unfold first_active_policy. rewrite hd_error_None, sort_by_nil. split.
    + intros Hnil p Hp.
      destruct (AIEthicsPolicy.is_active p now) eqn:Ha; [|reflexivity].
      assert (H : In p (active_policies db now)) by (apply Hin; now split).
      rewrite Hnil in H. contradiction.
    + intros Hnone.
      destruct (active_policies db now) as [|p l]; [reflexivity|].
      destruct (proj1 (Hin p) (or_introl eq_refl)) as (Hp & Ha).
      rewrite (Hnone p Hp) in Ha. discriminate.
Qed.

Lemma active_policy_query_agrees_witness :
  In test_policy (policies db0)
  /\ AIEthicsPolicy.is_active test_policy t0 = true.
Proof.
  destruct (active_policy_query_agrees db0 t0) as (_ & H & _).
  apply H. reflexivity.
Defined.

(** ** More on the policy evaluator *)

Lemma filter_andb {A} (f g : A -> bool) (l : list A) :
  filter (fun x => f x && g x) l = filter g (filter f l).
Proof.
  induction l as [|a l IH]; cbn [filter]; [reflexivity|].
  destruct (f a); cbn [andb filter]; [|exact IH].
  destruct (g a); now rewrite IH.
Qed.

Lemma logs_since_of db u since :
  logs_since db u since
  = filter (fun row => since <=? AIUsageLog.timestamp row) (logs_of db u).
Proof. unfold logs_since, logs_of. apply filter_andb. Qed.

(** X2. The verdict on an event depends on the store only through the
    policy the event refers to and the events of its own user: in two
    stores that agree on these, whatever other users have logged, the
    check gives the same result and runs the same queries. *)
Theorem check_compliance_own_events (db1 db2 : Database) (now : datetime)
    (self : AIUsageLog.t) :
  policy_of db1 self = policy_of db2 self ->
  logs_of db1 (AIUsageLog.user self) = logs_of db2 (AIUsageLog.user self) ->
  check_compliance db1 now self = check_compliance db2 now self.
Proof.
  intros Hp Hl. unfold check_compliance, count_logs_since.
  rewrite !logs_since_of, Hp, Hl. reflexivity.
Qed.

Lemma check_compliance_own_events_witness :
  check_compliance db_export t0 (test_log 7)
  = check_compliance db_export_alone t0 (test_log 7).
Proof.
  apply (check_compliance_own_events db_export db_export_alone t0 (test_log 7));
    reflexivity.
Defined.

(** ** Saving a stored log *)

Lemma map_replace_pks (pk : Z) (self : AIUsageLog.t) (l : list AIUsageLog.t) :
  AIUsageLog.id self = Some pk ->
  map AIUsageLog.id
      (map (fun row => if has_pk pk (AIUsageLog.id row) then self else row) l)
  = map AIUsageLog.id l.
Proof.
  intros Hid. rewrite map_map. apply map_ext. intros row.
  destruct (has_pk pk (AIUsageLog.id row)) eqn:Hk; [|reflexivity].
  apply has_pk_eq in Hk. congruence.
Qed.

(** X3. Saving a log whose primary key is in the table is an update: the
    table keeps its primary keys in place, so no row is added or lost, the
    rows with another key are as they were, the row written is the
    instance as evaluated by that save, with the timestamp it carried, and
    no insight is generated. *)
Theorem save_stored_log (db : Database) (now : datetime)
    (self : AIUsageLog.t) (pk : Z) :
  AIUsageLog.id self = Some pk ->
  existsb (fun row => has_pk pk (AIUsageLog.id row)) (usage_logs db) = true ->
  let db' := fst (save db now self) in
  insights db' = insights db
  /\ map AIUsageLog.id (usage_logs db') = map AIUsageLog.id (usage_logs db)
  /\ (forall row, In row (usage_logs db') ->
        has_pk pk (AIUsageLog.id row) = true ->
        row = evaluated db now self)
  /\ (forall row, In row (usage_logs db') ->
        has_pk pk (AIUsageLog.id row) = false -> In row (usage_logs db))
  /\ AIUsageLog.timestamp (snd (save db now self)) = AIUsageLog.timestamp self.
Proof.
  intros Hid Hex. cbv zeta.
  destruct (same_but_verdict_fields _ _ (evaluated_frame db now self))
    as (Hid' & _ & _ & Hts).
  rewrite save_unfold. unfold Model_save. rewrite Hid', Hid, Hex.
  cbn [fst snd]. unfold generate_usage_insights. cbn [negb].
  cbn [insights usage_logs with_usage_logs].
  split; [reflexivity|]. split; [|split; [|split]].
  - apply map_replace_pks. congruence.
  - intros row Hin Hk. apply in_map_iff in Hin as (old & <- & _).
    destruct (has_pk pk (AIUsageLog.id old)) eqn:Ho; [reflexivity|].
    congruence.
  - intros row Hin Hk. apply in_map_iff in Hin as (old & <- & Hold).
    destruct (has_pk pk (AIUsageLog.id old)) eqn:Ho; [|exact Hold].
    exfalso. rewrite Hid', Hid in Hk. cbn [has_pk] in Hk.
    rewrite Z.eqb_refl in Hk. discriminate.
  - exact Hts.
Qed.

Lemma save_stored_log_witness :
  insights (fst (save db2 (t0 + 1) row1)) = insights db2
  /\ map AIUsageLog.id (usage_logs (fst (save db2 (t0 + 1) row1)))
     = map AIUsageLog.id (usage_logs db2).
Proof.
  assert (Hid : AIUsageLog.id row1 = Some 1) by (vm_compute; reflexivity).
  assert (Hex : existsb (fun row => has_pk 1 (AIUsageLog.id row))
                        (usage_logs db2) = true)
    by (vm_compute; reflexivity).
  destruct (save_stored_log db2 (t0 + 1) row1 1 Hid Hex) as (Hi & Hk & _).
  split; [exact Hi | exact Hk].
Defined.

(** ** More on the insight generator *)

Lemma fresh_pk (l : list UserInsight.t) (old : UserInsight.t) :
  In old l -> UserInsight.id old <> Some (next_pk (map UserInsight.id l)).
Proof.
  intros Hin Heq.
  assert (H : next_pk (map UserInsight.id l) < next_pk (map UserInsight.id l)).
  { apply next_pk_gt. rewrite <- Heq. now apply in_map. }
  lia.
Qed.

Lemma generated_for_new db l now user ty ti me pr :
  (ty = "warning" \/ ty = "achievement") ->
  incl (insights db) l ->
  generated_for db now user
    (new_insight (next_pk (map UserInsight.id l)) now user ty ti me pr).
Proof.
  intros Hty Hincl. unfold generated_for, new_insight.
  cbn [UserInsight.user UserInsight.is_read UserInsight.is_dismissed
       UserInsight.generated_at UserInsight.insight_type UserInsight.id].
  repeat split; try assumption.
  intros old Hold. apply fresh_pk. now apply Hincl.
Qed.

(** X4. Whatever the event, the receiver only appends to the insight
    table, at most two rows, and writes no other table.  Each row it adds
    is a warning or an achievement for the user of the event, unread, not
    dismissed, generated at the time of the call and with a primary key no
    earlier insight has.  Called for a save that did not create the row, it
    adds nothing. *)
Theorem generate_usage_insights_frame (db : Database) (now : datetime)
    (instance : AIUsageLog.t) (created : bool) :
  let db' := generate_usage_insights db now instance created in
  exists added,
    insights db' = insights db ++ added
    /\ (List.length added <= 2)%nat
    /\ Forall (generated_for db now (AIUsageLog.user instance)) added
    /\ (created = false -> added = [])
    /\ (users db', profiles db', policies db', usage_logs db', feedback db')
       = (users db, profiles db, policies db, usage_logs db, feedback db).
Proof.
  cbv zeta. unfold generate_usage_insights.
  destruct created; cbn [negb].
  2:{ exists []. rewrite app_nil_r. repeat split; auto. }
  set (user := AIUsageLog.user instance).
  set (today_usage := count (logs_since db user (midnight now))).
  destruct ((50 <=? today_usage) && negb (warning_exists db user (midnight now))).
  - set (db1 := create_insight db now user "warning" "High AI Usage Today"
                  (warning_message today_usage) "high").
    change (logs_of db1 user) with (logs_of db user).
    set (w := new_insight (next_pk (map UserInsight.id (insights db))) now user
                "warning" "High AI Usage Today"
                (warning_message today_usage) "high").
    assert (Hw : generated_for db now user w)
      by (apply generated_for_new; [now left | apply incl_refl]).
    destruct (is_milestone (count (logs_of db user))).
    + eexists [w; _].
      split; [unfold create_insight; cbn [insights with_insights]; subst db1;
              unfold create_insight; cbn [insights with_insights];
              rewrite <- app_assoc; reflexivity|].
      split; [cbn; lia|]. split; [|split; [discriminate | reflexivity]].
      constructor; [exact Hw|]. constructor; [|constructor].
      apply generated_for_new; [now right|].
      subst db1. unfold create_insight. cbn [insights with_insights].
      apply incl_appl, incl_refl.
    + exists [w]. split; [reflexivity|]. split; [cbn; lia|].
      split; [|split; [discriminate | reflexivity]].
      constructor; [exact Hw | constructor].
  - destruct (is_milestone (count (logs_of db user))).
    + eexists [_]. split; [reflexivity|]. split; [cbn; lia|].
      split; [|split; [discriminate | reflexivity]].
      constructor; [|constructor].
      apply generated_for_new; [now right | apply incl_refl].
    + exists []. rewrite app_nil_r. split; [reflexivity|].
      split; [cbn; lia|]. split; [constructor|].
      split; [reflexivity | reflexivity].
Qed.

(** ** More on the compliance aggregator *)

(** X5. The result of [calculate_score] depends on the two counts only:
    the score and level stored before are overwritten, two records with
    the same counts get the same score and level, and computing again on
    the result changes nothing. *)
Theorem calculate_score_recomputation (self self' : ComplianceStatus.t) :
  calculate_score self = Some self' ->
  calculate_score self' = Some self'
  /\ forall other,
       ComplianceStatus.total_usage_count other
       = ComplianceStatus.total_usage_count self ->
       ComplianceStatus.compliant_usage_count other
       = ComplianceStatus.compliant_usage_count self ->
       exists other',
         calculate_score other = Some other'
         /\ ComplianceStatus.compliance_score other'
            = ComplianceStatus.compliance_score self'
         /\ ComplianceStatus.compliance_level other'
            = ComplianceStatus.compliance_level self'.
Proof.
  unfold calculate_score. intros H. split.
  - destruct (if ComplianceStatus.total_usage_count self =? 0
              then Some 100
              else percentage (ComplianceStatus.compliant_usage_count self)
                              (ComplianceStatus.total_usage_count self))
      as [s|] eqn:Hs; [|discriminate].
    injection H as <-.
    cbn [ComplianceStatus.set_score_level ComplianceStatus.total_usage_count
         ComplianceStatus.compliant_usage_count ComplianceStatus.user
         ComplianceStatus.policy ComplianceStatus.violation_count
         ComplianceStatus.period_start ComplianceStatus.period_end
         ComplianceStatus.notes].
    rewrite Hs. reflexivity.
  - intros other Ht Hc. rewrite Ht, Hc.
    destruct (if ComplianceStatus.total_usage_count self =? 0
              then Some 100
              else percentage (ComplianceStatus.compliant_usage_count self)
                              (ComplianceStatus.total_usage_count self))
      as [s|]; [|discriminate].
    injection H as <-. eexists. split; [reflexivity|]. split; reflexivity.
Qed.

Lemma calculate_score_recomputation_witness :
  exists other',
    calculate_score all_compliant = Some other'
    /\ ComplianceStatus.compliance_score other' = 100
    /\ ComplianceStatus.compliance_level other' = "excellent".
Proof.
  assert (H : calculate_score
                (ComplianceStatus.set_score_level all_compliant 100 "excellent")
              = Some (ComplianceStatus.set_score_level all_compliant 100
                        "excellent"))
    by (vm_compute; reflexivity).
  destruct (calculate_score_recomputation _ _ H) as (_ & Hother).
  apply (Hother all_compliant); reflexivity.
Defined.

(** ** Logging usage through the view *)






Example client_ip_first_entry : client_ip proxied = Some "203.0.113.7".
Proof. reflexivity. Qed.

Lemma find_policy_by_id (ps : list AIEthicsPolicy.t) (p : AIEthicsPolicy.t) :
  NoDup (map AIEthicsPolicy.id ps) ->
  In p ps ->
  find (fun q => AIEthicsPolicy.id q =? AIEthicsPolicy.id p) ps = Some p.
Proof.
  induction ps as [|q ps IH]; cbn [map find In]; [intros _ []|].
  intros Hnd [->|Hin].
  - now rewrite Z.eqb_refl.
  - inversion Hnd as [|? ? Hnotin Hnd']; subst.
    destruct (Z.eqb_spec (AIEthicsPolicy.id q) (AIEthicsPolicy.id p)) as [He|_].
    + exfalso. apply Hnotin. rewrite He. now apply in_map.
    + now apply IH.
Qed.

Section LogUsageProperties.

Variable is_valid : AIUsageLogForm.t -> bool.

(** X7. A valid POST stores exactly one new row, at the end of the table,
    and redirects to the dashboard.  The row belongs to the requesting
    user, carries the data of the form, the time of the request and the
    client's user agent, and refers to the active policy the view found, or
    to none.  A GET or an invalid POST renders the form and leaves the
    store as it is. *)
Theorem log_usage_view_stores (db : Database) (now : datetime)
    (request_user : Z) (meta : META) (request_method : method) :
  (forall data,
     request_method = POST data -> is_valid data = true ->
     snd (log_usage_view is_valid db now request_user meta request_method)
     = Redirect "dashboard:dashboard"
     /\ exists row,
          usage_logs
            (fst (log_usage_view is_valid db now request_user meta
                    request_method))
          = usage_logs db ++ [row]
          /\ AIUsageLog.user row = request_user
          /\ AIUsageLog.timestamp row = now
          /\ AIUsageLog.policy row
             = option_map AIEthicsPolicy.id (first_active_policy db now)
          /\ AIUsageLog.user_agent row = client_user_agent meta
          /\ AIUsageLogForm.mk
               (AIUsageLog.ai_tool row) (AIUsageLog.usage_type row)
               (AIUsageLog.description row) (AIUsageLog.course_code row)
               (AIUsageLog.assignment_id row)
               (AIUsageLog.duration_minutes row) (AIUsageLog.tokens_used row)
             = data)
  /\ (request_method = GET
      \/ (exists data, request_method = POST data /\ is_valid data = false) ->
      log_usage_view is_valid db now request_user meta request_method
      = (db, Render "dashboard/log_usage.html")).
Proof.
  split.
  - intros data -> Hv. unfold log_usage_view. rewrite Hv. cbn [fst snd].
    split; [reflexivity|].
    set (inst := usage_log_of_request db now request_user meta data).
    pose proof (save_insert db now inst eq_refl) as Hs. cbv zeta in Hs.
    rewrite Hs. cbn [fst]. rewrite generate_usage_insights_logs.
    cbn [usage_logs with_usage_logs].
    eexists. split; [reflexivity|].
    destruct (evaluated_frame db now inst) as [].
    unfold verdict, AIUsageLog.set_inserted, AIUsageLog.set_compliance_notes,
      AIUsageLog.set_is_compliant.
    cbn [AIUsageLog.user AIUsageLog.timestamp AIUsageLog.policy
         AIUsageLog.ip_address AIUsageLog.user_agent AIUsageLog.ai_tool
         AIUsageLog.usage_type AIUsageLog.description AIUsageLog.course_code
         AIUsageLog.assignment_id AIUsageLog.duration_minutes
         AIUsageLog.tokens_used].
    subst inst. unfold usage_log_of_request.
    cbn [AIUsageLog.user AIUsageLog.timestamp AIUsageLog.policy
         AIUsageLog.ip_address AIUsageLog.user_agent AIUsageLog.ai_tool
         AIUsageLog.usage_type AIUsageLog.description AIUsageLog.course_code
         AIUsageLog.assignment_id AIUsageLog.duration_minutes
         AIUsageLog.tokens_used].
    repeat split. now destruct data.
  - intros [->|(data & -> & Hv)]; unfold log_usage_view;
      [|rewrite Hv]; reflexivity.
Qed.

End LogUsageProperties.

Lemma first_active_policy_active db now p :
  first_active_policy db now = Some p ->
  In p (policies db) /\ AIEthicsPolicy.is_active p now = true.
Proof.
  unfold first_active_policy, active_policies. intros H.
  apply hd_error_In in H. apply In_sort_by in H.
  apply filter_In in H as (Hin & Ha).
  now rewrite policy_in_effect_is_active in Ha.
Qed.

Lemma log_usage_view_stores_witness :
  snd (log_usage_view (fun _ => true) db5 (t0 + 5) 7 proxied (POST sample_form))
  = Redirect "dashboard:dashboard".
Proof.
  destruct (log_usage_view_stores (fun _ => true) db5 (t0 + 5) 7 proxied
              (POST sample_form)) as (H & _).
  destruct (H sample_form eq_refl eq_refl) as (Hr & _). exact Hr.
Defined.

Section LogUsageVerdict.

Variable is_valid : AIUsageLogForm.t -> bool.

(** X8. The verdict of an event logged through the view, when the primary
    keys of the policy table are distinct.  If the view finds no active
    policy, the row refers to none and is stored compliant with empty
    notes.  If it finds one, the row refers to it and is evaluated against
    it: it is non-compliant exactly when the user's events since midnight
    have reached [max_daily_usage] or those of the last seven days
    [max_weekly_usage], and its note is the daily, the weekly or the
    within-limits note accordingly. *)
Theorem log_usage_view_verdict (db : Database) (now : datetime)
    (request_user : Z) (meta : META) (data : AIUsageLogForm.t) :
  NoDup (map AIEthicsPolicy.id (policies db)) ->
  is_valid data = true ->
  exists row,
    usage_logs (fst (log_usage_view is_valid db now request_user meta
                       (POST data)))
    = usage_logs db ++ [row]
    /\ (first_active_policy db now = None ->
        AIUsageLog.policy row = None
        /\ AIUsageLog.is_compliant row = true
        /\ AIUsageLog.compliance_notes row = "")
    /\ (forall p,
        first_active_policy db now = Some p ->
        let daily := daily_count db request_user now in
        let weekly := weekly_count db request_user now in
        AIUsageLog.policy row = Some (AIEthicsPolicy.id p)
        /\ (AIUsageLog.is_compliant row = false <->
            AIEthicsPolicy.max_daily_usage p <= daily
            \/ AIEthicsPolicy.max_weekly_usage p <= weekly)
        /\ (AIEthicsPolicy.max_daily_usage p <= daily ->
            AIUsageLog.compliance_notes row = daily_note p)
        /\ (daily < AIEthicsPolicy.max_daily_usage p ->
            AIEthicsPolicy.max_weekly_usage p <= weekly ->
            AIUsageLog.compliance_notes row = weekly_note p)
        /\ (daily < AIEthicsPolicy.max_daily_usage p ->
            weekly < AIEthicsPolicy.max_weekly_usage p ->
            AIUsageLog.compliance_notes row = within_note)).
Proof.
  intros Hnd Hv. unfold log_usage_view. rewrite Hv. cbn [fst].
  set (inst := usage_log_of_request db now request_user meta data).
  pose proof (save_insert db now inst eq_refl) as Hs. cbv zeta in Hs.
  rewrite Hs. cbn [fst]. rewrite generate_usage_insights_logs.
  cbn [usage_logs with_usage_logs].
  eexists. split; [reflexivity|].
  cbn [AIUsageLog.set_inserted AIUsageLog.policy AIUsageLog.is_compliant
       AIUsageLog.compliance_notes].
  assert (Hpol : AIUsageLog.policy (evaluated db now inst)
                 = option_map AIEthicsPolicy.id (first_active_policy db now)).
  { destruct (same_but_verdict_fields _ _ (evaluated_frame db now inst))
      as (_ & _ & H & _). exact H. }
  rewrite Hpol. split.
  - intros Hnone. rewrite Hnone. cbn [option_map].
    split; [reflexivity|].
    unfold evaluated, policy_of. subst inst. unfold usage_log_of_request.
    cbn [AIUsageLog.policy]. rewrite Hnone. cbn [option_map].
    split; reflexivity.
  - intros p Hp. cbv zeta. rewrite Hp. cbn [option_map].
    split; [reflexivity|].
    destruct (first_active_policy_active _ _ _ Hp) as (Hin & Ha).
    assert (Hpo : policy_of db inst = Some p).
    { unfold policy_of. subst inst. unfold usage_log_of_request.
      cbn [AIUsageLog.policy]. rewrite Hp. cbn [option_map].
      now apply find_policy_by_id. }
    assert (Hact : active_policy db now inst = Some p)
      by (now apply active_policy_intro).
    assert (He : evaluated db now inst = fst (check_compliance db now inst))
      by (unfold evaluated; now rewrite Hpo).
    rewrite He.
    change request_user with (AIUsageLog.user inst).
    set (daily := daily_count db (AIUsageLog.user inst) now).
    set (weekly := weekly_count db (AIUsageLog.user inst) now).
    destruct (Z.le_gt_cases (AIEthicsPolicy.max_daily_usage p) daily) as [Hd|Hd].
    + rewrite (check_compliance_daily _ _ _ _ Hact Hd). cbn [fst].
      unfold verdict.
      cbn [AIUsageLog.set_compliance_notes AIUsageLog.set_is_compliant
           AIUsageLog.is_compliant AIUsageLog.compliance_notes].
      repeat split; intros; solve [reflexivity | now left | lia].
    + destruct (Z.le_gt_cases (AIEthicsPolicy.max_weekly_usage p) weekly)
        as [Hw|Hw].
      * rewrite (check_compliance_weekly _ _ _ _ Hact Hd Hw). cbn [fst].
        unfold verdict.
        cbn [AIUsageLog.set_compliance_notes AIUsageLog.set_is_compliant
             AIUsageLog.is_compliant AIUsageLog.compliance_notes].
        repeat split; intros; solve [reflexivity | now right | lia].
      * rewrite (check_compliance_within _ _ _ _ Hact Hd Hw). cbn [fst].
        unfold verdict.
        cbn [AIUsageLog.set_compliance_notes AIUsageLog.set_is_compliant
             AIUsageLog.is_compliant AIUsageLog.compliance_notes].
        repeat split; intros; solve [reflexivity | discriminate | lia].
Qed.

End LogUsageVerdict.

Lemma log_usage_view_verdict_witness :
  exists row,
    usage_logs (fst (log_usage_view (fun _ => true) db5 (t0 + 5) 7 proxied
                       (POST sample_form)))
    = usage_logs db5 ++ [row]
    /\ AIUsageLog.compliance_notes row = daily_note test_policy.
Proof.
  assert (Hnd : NoDup (map AIEthicsPolicy.id (policies db5))).
  { vm_compute. constructor; [intros []|constructor]. }
  destruct (log_usage_view_verdict (fun _ => true) db5 (t0 + 5) 7 proxied
              sample_form Hnd eq_refl) as (row & Hrow & _ & H).
  exists row. split; [exact Hrow|].
  assert (Hp : first_active_policy db5 (t0 + 5) = Some test_policy)
    by (vm_compute; reflexivity).
  destruct (H test_policy Hp) as (_ & _ & Hd & _).
  apply Hd. vm_compute. discriminate.
Defined.

(** ** The figures of the dashboard *)

Lemma count_filter_le {A} (f g : A -> bool) (l : list A) :
  (forall x, f x = true -> g x = true) ->
  count (filter f l) <= count (filter g l).
Proof.
  intros H. unfold count. apply inj_le.
  induction l as [|a l IH]; cbn [filter]; [lia|].
  destruct (f a) eqn:Hf.
  - rewrite (H a Hf). cbn [List.length]. lia.
  - destruct (g a); cbn [List.length]; lia.
Qed.

Lemma logs_since_le db u since since' :
  since <= since' ->
  count (logs_since db u since') <= count (logs_since db u since).
Proof.
  intros Hle. unfold logs_since. apply count_filter_le.
  intros row H. apply andb_prop in H as (Hu & Ht).
  rewrite Hu. cbn [andb]. apply Z.leb_le in Ht. apply Z.leb_le. lia.
Qed.

Lemma logs_since_le_total db u since :
  0 <= count (logs_since db u since) <= count (logs_of db u).
Proof.
  split; [unfold count; lia|].
  unfold logs_since, logs_of. apply count_filter_le.
  intros row H. now apply andb_prop in H as (Hu & _).
Qed.

(** X9. The four usage figures of the dashboard are nested: the events
    since midnight are among those of the last seven days, these among
    those of the last thirty, and these among all events of the user, so
    [0 <= today <= week <= month <= total].  The profile page's summary
    shows the same total and the same week figure. *)
Theorem usage_figures_nested (db : Database) (now : datetime) (user : Z) :
  0 <= today_usage db now user
  /\ today_usage db now user <= week_usage db now user
  /\ week_usage db now user <= month_usage db now user
  /\ month_usage db now user <= total_usage db user
  /\ get_usage_summary db now user
     = (total_usage db user, week_usage db now user).
Proof.
  unfold today_usage, week_usage, month_usage, total_usage, get_usage_summary.
  split; [apply logs_since_le_total|].
  split; [|split; [|split; [apply logs_since_le_total | reflexivity]]].
  - apply logs_since_le. unfold midnight, timedelta_days.
    pose proof (Z.mod_pos_bound now day_us eq_refl). unfold day_us in *. lia.
  - apply logs_since_le. unfold timedelta_days, day_us. lia.
Qed.

(** X10. The compliance figure of the dashboard is the one the aggregator
    computes from the same counts: with an active policy, the percentage
    and the level shown are the score and the level [calculate_score]
    gives a record whose total is the user's events of the last seven days
    and whose compliant count is the compliant ones among them; the
    compliant count never exceeds the total.  With no active policy the
    dashboard shows no compliance status. *)
Theorem dashboard_compliance_agrees (db : Database) (now : datetime)
    (user : Z) (status : ComplianceStatus.t) :
  let recent := logs_since db user (now - timedelta_days 7) in
  ComplianceStatus.total_usage_count status = count recent ->
  ComplianceStatus.compliant_usage_count status
  = count (filter AIUsageLog.is_compliant recent) ->
  0 <= ComplianceStatus.compliant_usage_count status
    <= ComplianceStatus.total_usage_count status
  /\ (first_active_policy db now = None ->
      dashboard_compliance db now user = Some None)
  /\ (forall p,
      first_active_policy db now = Some p ->
      dashboard_compliance db now user
      = match calculate_score status with
        | Some status' =>
          Some (Some (ComplianceStatus.compliance_level status',
                      ComplianceStatus.compliance_score status', p))
        | None => None
        end).
Proof.
  cbv zeta. intros Ht Hc. split; [|split].
  - rewrite Ht, Hc. split; [unfold count; lia|].
    unfold count. apply inj_le, List.filter_length_le.
  - intros Hp. unfold dashboard_compliance. now rewrite Hp.
  - intros p Hp. unfold dashboard_compliance, calculate_score.
    rewrite Hp, Ht, Hc.
    set (total := count (logs_since db user (now - timedelta_days 7))).
    assert (Hpos : 0 <= total) by (unfold total, count; lia).
    destruct (Z.eqb_spec total 0) as [H0|H0].
    + rewrite H0. cbn [Z.ltb Z.compare]. reflexivity.
    + replace (0 <? total) with true by (symmetry; apply Z.ltb_lt; lia).
      destruct (percentage _ total); reflexivity.
Qed.

Lemma dashboard_compliance_agrees_witness :
  dashboard_compliance db5 (t0 + 5) 7
  = Some (Some ("excellent", 100, test_policy)).
Proof.
  assert (Hp : first_active_policy db5 (t0 + 5) = Some test_policy)
    by (vm_compute; reflexivity).
  destruct (dashboard_compliance_agrees db5 (t0 + 5) 7
              (ComplianceStatus.mk 7 1 "" 0 5 5 0 19000 19007 ""))
    as (_ & _ & H).
  - vm_compute. reflexivity.
  - vm_compute. reflexivity.
  - rewrite (H test_policy Hp). vm_compute. reflexivity.
Defined.

Lemma In_firstn {A} (n : nat) (l : list A) (x : A) :
  In x (firstn n l) -> In x l.
Proof.
  intros H. rewrite <- (firstn_skipn n l). apply in_or_app. now left.
Qed.

Lemma newest_first_total a b :
  newest_first a b = true \/ newest_first b a = true.
Proof.
  unfold newest_first.
  destruct (Z.le_ge_cases (AIUsageLog.timestamp a) (AIUsageLog.timestamp b));
    [right | left]; now apply Z.leb_le.
Qed.

Lemma newest_first_trans a b c :
  newest_first a b = true -> newest_first b c = true ->
  newest_first a c = true.
Proof. unfold newest_first. rewrite !Z.leb_le. lia. Qed.

(** X11. The recent activity of the dashboard holds the user's ten latest
    events, latest first: it has ten rows, or all of the user's when there
    are fewer; it is sorted by timestamp, descending; together with the
    rows left out it is the user's events, each as often as stored; and no
    row left out is later than a row shown. *)
Theorem recent_logs_latest (db : Database) (user : Z) :
  List.length (recent_logs db user)
  = Nat.min 10 (List.length (logs_of db user))
  /\ StronglySorted
       (fun a b => AIUsageLog.timestamp b <= AIUsageLog.timestamp a)
       (recent_logs db user)
  /\ exists rest,
       Permutation (recent_logs db user ++ rest) (logs_of db user)
       /\ forall shown left_out,
            In shown (recent_logs db user) -> In left_out rest ->
            AIUsageLog.timestamp left_out <= AIUsageLog.timestamp shown.
Proof.
  unfold recent_logs.
  set (sorted := sort_by newest_first (logs_of db user)).
  assert (Hperm : Permutation sorted (logs_of db user))
    by apply sort_by_perm.
  assert (Hsorted : StronglySorted (fun x y => newest_first x y = true) sorted)
    by (apply sort_by_sorted;
        [apply newest_first_total | apply newest_first_trans]).
  rewrite <- (firstn_skipn 10 sorted) in Hsorted.
  apply StronglySorted_app_inv in Hsorted as (Hs & Hcross).
  split; [|split].
  - rewrite length_firstn. now rewrite (Permutation_length Hperm).
  - clear Hcross. induction Hs as [|a l Hl IH Ha]; constructor.
    + exact IH.
    + apply Forall_forall. intros x Hx. rewrite Forall_forall in Ha.
      apply Z.leb_le. now apply Ha.
  - exists (skipn 10 sorted). split.
    + now rewrite firstn_skipn.
    + intros shown left_out Hshown Hleft. apply Z.leb_le.
      now apply (Hcross shown left_out).
Qed.

(** Every row of the recent activity is a stored event of the user. *)
Lemma recent_logs_own (db : Database) (user : Z) (row : AIUsageLog.t) :
  In row (recent_logs db user) ->
  In row (usage_logs db) /\ AIUsageLog.user row = user.
Proof.
  unfold recent_logs. intros H. apply In_firstn in H.
  apply (Permutation_in _ (sort_by_perm newest_first _)) in H.
  unfold logs_of in H. apply filter_In in H as (Hin & Hu).
  apply Z.eqb_eq in Hu. now split.
Qed.

(** ** Unread insights on the dashboard *)

(** X12. The unread insights of the dashboard are at most five stored
    insights of the user, none of them read or dismissed; and once the
    user has viewed the insights page, the dashboard shows none. *)
Theorem unread_insights_after_view (db : Database) (user : Z) :
  (List.length (unread_insights db user) <= 5)%nat
  /\ (forall i, In i (unread_insights db user) ->
        In i (insights db)
        /\ UserInsight.user i = user
        /\ UserInsight.is_read i = false
        /\ UserInsight.is_dismissed i = false)
  /\ unread_insights (fst (insights_view db user)) user = [].
Proof.
  assert (Hin : forall d i, In i (unread_insights d user) ->
                  In i (insights d)
                  /\ UserInsight.user i = user
                  /\ UserInsight.is_read i = false
                  /\ UserInsight.is_dismissed i = false).
  { intros d i H. unfold unread_insights in H. apply In_firstn in H.
    apply (proj1 (In_order_by _ _)) in H. apply filter_In in H as (Hi & Hc).
    apply andb_prop in Hc as (Hc & Hd). apply andb_prop in Hc as (Hu & Hr).
    apply Z.eqb_eq in Hu. apply negb_true_iff in Hr, Hd. now repeat split. }
  split; [unfold unread_insights; apply firstn_le_length|].
  split; [apply Hin|].
  destruct (unread_insights (fst (insights_view db user)) user) as [|i l] eqn:Hl;
    [reflexivity|].
  exfalso.
  destruct (Hin (fst (insights_view db user)) i) as (Hi & Hu & Hr & Hd);
    [rewrite Hl; now left|].
  unfold insights_view, mark_listed_read in Hi.
  cbn [fst insights with_insights] in Hi.
  apply in_map_iff in Hi as (old & Hold & _).
  destruct ((UserInsight.user old =? user)
            && negb (UserInsight.is_dismissed old)
            && negb (UserInsight.is_read old)) eqn:Hc.
  - subst i. cbn [UserInsight.set_is_read UserInsight.is_read] in Hr.
    discriminate.
  - subst i. rewrite Hd, Hr in Hc. apply Z.eqb_eq in Hu. rewrite Hu in Hc.
    discriminate.
Qed.

(** ** The thirty-day trend *)

Lemma on_day_iff (t : datetime) (d : date) :
  (d * day_us <=? t) && (t <=? d * day_us + (day_us - 1)) = (date_of t =? d).
Proof.
  unfold date_of.
  pose proof (Z.div_mod t day_us ltac:(discriminate)) as Hdm.
  pose proof (Z.mod_pos_bound t day_us eq_refl) as Hm.
  destruct (Z.eqb_spec (t / day_us) d) as [<-|Hne].
  - apply andb_true_intro. split; apply Z.leb_le; nia.
  - apply andb_false_iff.
    destruct (Z.leb_spec (d * day_us) t) as [H1|H1]; [|now left].
    destruct (Z.leb_spec t (d * day_us + (day_us - 1))) as [H2|H2];
      [|now right].
    exfalso. apply Hne. symmetry.
    apply (Z.div_unique t day_us d (t - d * day_us)); lia.
Qed.

Lemma count_on_day_date db user d :
  count_on_day db user d
  = count (filter (fun row => (AIUsageLog.user row =? user)
                              && (date_of (AIUsageLog.timestamp row) =? d))
                  (usage_logs db)).
Proof.
  unfold count_on_day. cbv zeta. f_equal. apply filter_ext. intros row.
  now rewrite <- andb_assoc, on_day_iff.
Qed.

Lemma sum_map_zero {A} (l : list A) : sum (map (fun _ => 0) l) = 0.
Proof. induction l as [|a l IH]; cbn [map sum fold_right]; [reflexivity|]. exact IH. Qed.

Lemma sum_map_add {A} (f g : A -> Z) (l : list A) :
  sum (map (fun i => f i + g i) l) = sum (map f l) + sum (map g l).
Proof.
  unfold sum. induction l as [|a l IH]; cbn [map fold_right]; [reflexivity|].
  rewrite IH. lia.
Qed.

Lemma sum_indicator {A} (f : A -> bool) (l : list A) :
  NoDup l ->
  (forall i j, In i l -> In j l -> f i = true -> f j = true -> i = j) ->
  sum (map (fun i => if f i then 1 else 0) l) = if existsb f l then 1 else 0.
Proof.
  unfold sum. induction 1 as [|a l Hnotin Hnd IH]; intros Huniq;
    cbn [map fold_right existsb]; [reflexivity|].
  assert (IH' := IH (fun i j Hi Hj => Huniq i j (or_intror Hi) (or_intror Hj))).
  rewrite IH'. destruct (f a) eqn:Hfa; cbn [orb]; [|reflexivity].
  destruct (existsb f l) eqn:Hex; [|reflexivity].
  exfalso. apply existsb_exists in Hex as (j & Hj & Hfj).
  apply Hnotin. now rewrite (Huniq a j (or_introl eq_refl) (or_intror Hj) Hfa Hfj).
Qed.

Lemma sum_counts {A B} (P : A -> B -> bool) (ks : list A) (l : list B) :
  NoDup ks ->
  (forall x i j, In i ks -> In j ks -> P i x = true -> P j x = true -> i = j) ->
  sum (map (fun i => count (filter (P i) l)) ks)
  = count (filter (fun x => existsb (fun i => P i x) ks) l).
Proof.
  intros Hnd Huniq. induction l as [|x l IH]; cbn [filter].
  - apply sum_map_zero.
  - rewrite (map_ext _ (fun i => (if P i x then 1 else 0)
                                 + count (filter (P i) l))).
    2:{ intros i. destruct (P i x); unfold count; cbn [List.length]; lia. }
    rewrite sum_map_add, IH, (sum_indicator (fun i => P i x)); [|exact Hnd|].
    + destruct (existsb (fun i => P i x) ks);
        unfold count; cbn [List.length]; lia.
    + intros i j. apply Huniq.
Qed.

Lemma existsb_thirty_days (today d : date) :
  existsb (fun i => d =? today - Z.of_nat i) (rev (seq 0 30))
  = (today - 29 <=? d) && (d <=? today).
Proof.
  apply eq_true_iff_eq. rewrite existsb_exists, andb_true_iff, !Z.leb_le.
  split.
  - intros (i & Hi & Heq). apply in_rev, in_seq in Hi.
    apply Z.eqb_eq in Heq. lia.
  - intros (H1 & H2). exists (Z.to_nat (today - d)). split.
    + apply in_rev. rewrite rev_involutive. apply in_seq. lia.
    + apply Z.eqb_eq. lia.
Qed.

Section DailyUsageProperties.

Variable strftime : date -> string.

(** X13. The trend of the dashboard has thirty entries, for the days from
    29 days ago to today in this order, and the count of an entry is the
    number of the user's events whose timestamp falls on that day: the
    window from the first to the last microsecond of a day is that
    calendar day.  So each event of the user dated within these thirty
    days is counted in exactly one entry, and the counts add up to their
    number. *)
Theorem daily_usage_by_date (db : Database) (now : datetime) (user : Z) :
  daily_usage strftime db now user
  = map (fun i =>
           let d := date_of now - Z.of_nat i in
           (strftime d,
            count (filter (fun row =>
                             (AIUsageLog.user row =? user)
                             && (date_of (AIUsageLog.timestamp row) =? d))
                          (usage_logs db))))
        (rev (seq 0 30))
  /\ List.length (daily_usage strftime db now user) = 30%nat
  /\ sum (map snd (daily_usage strftime db now user))
     = count (logs_on_days db user (date_of now - 29) (date_of now)).
Proof.
  assert (Heq : daily_usage strftime db now user
    = map (fun i =>
           let d := date_of now - Z.of_nat i in
           (strftime d,
            count (filter (fun row =>
                             (AIUsageLog.user row =? user)
                             && (date_of (AIUsageLog.timestamp row) =? d))
                          (usage_logs db))))
        (rev (seq 0 30))).
  { unfold daily_usage. apply map_ext. intros i. cbv zeta.
    now rewrite count_on_day_date. }
  split; [exact Heq|]. split.
  - unfold daily_usage. now rewrite length_map, length_rev, length_seq.
  - rewrite Heq, map_map. cbv zeta. cbn [snd].
    rewrite (sum_counts
               (fun i row => (AIUsageLog.user row =? user)
                             && (date_of (AIUsageLog.timestamp row)
                                 =? date_of now - Z.of_nat i))).
    + unfold logs_on_days. f_equal. apply filter_ext. intros row.
      rewrite <- andb_assoc, <- existsb_thirty_days.
      destruct (AIUsageLog.user row =? user); cbn [andb]; [reflexivity|].
      clear Heq. induction (rev (seq 0 30)) as [|i l IH]; [reflexivity|].
      cbn [existsb andb orb]. exact IH.
    + apply NoDup_rev, seq_NoDup.
    + intros row i j _ _ Hi Hj.
      apply andb_prop in Hi as (_ & Hi). apply andb_prop in Hj as (_ & Hj).
      apply Z.eqb_eq in Hi, Hj. lia.
Qed.

End DailyUsageProperties.

(** ** Pagination *)

Lemma chunks_concat {A} (n : nat) :
  forall l : list A,
    (List.length l <= 25 * n)%nat ->
    List.concat (map (fun k => firstn 25 (skipn (25 * k) l)) (seq 0 n)) = l.
Proof.
  induction n as [|n IH]; intros l Hl.
  - destruct l; [reflexivity | cbn in Hl; lia].
  - cbn [seq map List.concat]. rewrite <- seq_shift, map_map.
    rewrite (map_ext _ (fun k => firstn 25 (skipn (25 * k) (skipn 25 l)))).
    2:{ intros k. rewrite skipn_skipn. f_equal. f_equal. lia. }
    rewrite IH by (rewrite length_skipn; lia).
    change (25 * 0)%nat with 0%nat. cbn [skipn].
    apply firstn_skipn.
Qed.

Lemma num_pages_bounds (c : Z) :
  0 <= c ->
  1 <= num_pages c 25
  /\ c <= 25 * num_pages c 25
  /\ 25 * (num_pages c 25 - 1) < Z.max 1 c.
Proof.
  intros Hc. unfold num_pages.
  pose proof (Z.div_mod (Z.max 1 c + 25 - 1) 25 ltac:(discriminate)) as Hdm.
  pose proof (Z.mod_pos_bound (Z.max 1 c + 25 - 1) 25 eq_refl) as Hm.
  lia.
Qed.

Lemma get_page_in_range {A} (l : list A) (k : Z) :
  1 <= k <= num_pages (count l) 25 ->
  get_page l 25 (Some k)
  = (k, firstn 25 (skipn (25 * Z.to_nat (k - 1)) l)).
Proof.
  intros Hk. unfold get_page. cbv zeta.
  assert (Hc : 0 <= count l) by (unfold count; lia).
  destruct (num_pages_bounds (count l) Hc) as (_ & _ & Hlast).
  replace ((k <? 1) || (num_pages (count l) 25 <? k)) with false.
  2:{ symmetry. apply orb_false_iff. split; apply Z.ltb_ge; lia. }
  f_equal.
  replace (Z.to_nat ((k - 1) * 25)) with (25 * Z.to_nat (k - 1))%nat by lia.
  assert (Hlen : List.length (skipn (25 * Z.to_nat (k - 1)) l)
                 = Z.to_nat (count l - (k - 1) * 25)).
  { rewrite length_skipn. unfold count in *. lia. }
  destruct (Z.leb_spec (count l) ((k - 1) * 25 + 25)) as [Hle|Hgt].
  - rewrite <- Hlen, firstn_all. symmetry. apply firstn_all2. lia.
  - f_equal. lia.
Qed.

(** X14. The pages of a list, 25 rows to a page, are consecutive slices
    that make up the list: put one after the other, pages 1 to
    [num_pages] give the list back, with nothing lost, repeated or
    reordered.  Whatever the page parameter, the page returned has a
    number from 1 to [num_pages] and at most 25 rows: the first page
    for a parameter that is no integer, the last one for a number below
    1 or beyond the last page; an empty list has one empty page. *)
Theorem get_page_partition {A} (l : list A) :
  List.concat (map (fun k => snd (get_page l 25 (Some (Z.of_nat k + 1))))
              (seq 0 (Z.to_nat (num_pages (count l) 25))))
  = l
  /\ (forall number,
        1 <= fst (get_page l 25 number) <= num_pages (count l) 25
        /\ (List.length (snd (get_page l 25 number)) <= 25)%nat)
  /\ get_page l 25 None = get_page l 25 (Some 1)
  /\ (forall n, n < 1 \/ num_pages (count l) 25 < n ->
        get_page l 25 (Some n)
        = get_page l 25 (Some (num_pages (count l) 25)))
  /\ (l = [] -> forall number, get_page l 25 number = (1, [])).
Proof.
  assert (Hc : 0 <= count l) by (unfold count; lia).
  destruct (num_pages_bounds (count l) Hc) as (Hone & Hcover & Hlast).
  assert (Hnorm : forall number, exists k,
            1 <= k <= num_pages (count l) 25
            /\ get_page l 25 number = get_page l 25 (Some k)).
  { intros [n|].
    - destruct (Z.ltb_spec n 1) as [H1|H1];
        [|destruct (Z.ltb_spec (num_pages (count l) 25) n) as [H2|H2]].
      + exists (num_pages (count l) 25). split; [lia|].
        unfold get_page. cbv zeta.
        replace (n <? 1) with true by (symmetry; apply Z.ltb_lt; lia).
        replace (num_pages (count l) 25 <? 1) with false
          by (symmetry; apply Z.ltb_ge; lia).
        rewrite Z.ltb_irrefl. reflexivity.
      + exists (num_pages (count l) 25). split; [lia|].
        unfold get_page. cbv zeta.
        replace (num_pages (count l) 25 <? n) with true
          by (symmetry; apply Z.ltb_lt; lia).
        rewrite orb_true_r.
        replace (num_pages (count l) 25 <? 1) with false
          by (symmetry; apply Z.ltb_ge; lia).
        rewrite Z.ltb_irrefl. reflexivity.
      + exists n. split; [lia | reflexivity].
    - exists 1. split; [lia|].
      unfold get_page. cbv zeta.
      replace (num_pages (count l) 25 <? 1) with false
        by (symmetry; apply Z.ltb_ge; lia).
      reflexivity. }
  split; [|split; [|split; [|split]]].
  - rewrite (map_ext_in _ (fun k => firstn 25 (skipn (25 * k) l))).
    + apply chunks_concat. unfold count in *. lia.
    + intros k Hk. apply in_seq in Hk.
      rewrite get_page_in_range by lia. cbn [snd].
      do 3 f_equal. lia.
  - intros number. destruct (Hnorm number) as (k & Hk & ->).
    rewrite get_page_in_range by exact Hk. cbn [fst snd].
    split; [exact Hk | apply firstn_le_length].
  - unfold get_page. cbv zeta.
    replace (num_pages (count l) 25 <? 1) with false
      by (symmetry; apply Z.ltb_ge; lia).
    reflexivity.
  - intros n Hn. unfold get_page. cbv zeta.
    replace ((n <? 1) || (num_pages (count l) 25 <? n)) with true.
    2:{ symmetry. apply orb_true_iff.
        destruct Hn; [left | right]; apply Z.ltb_lt; lia. }
    replace (num_pages (count l) 25 <? 1) with false
      by (symmetry; apply Z.ltb_ge; lia).
    rewrite Z.ltb_irrefl. reflexivity.
  - intros -> number. destruct (Hnorm number) as (k & Hk & ->).
    change (num_pages (count (@nil A)) 25) with 1 in Hk.
    replace k with 1 by lia. reflexivity.
Qed.

(** Sixty events fill three pages, of 25, 25 and 10 rows; page 7 is the
    last page. *)
Example sixty_events_three_pages :
  map (fun n => List.length (snd (get_page (usage_logs db60) 25 (Some n))))
      [1; 2; 3; 7; 0]
  = [25; 25; 10; 10; 10]%nat
  /\ num_pages (count (usage_logs db60)) 25 = 3.
Proof. vm_compute. split; reflexivity. Qed.

(** ** The usage history *)

Lemma StronglySorted_filter {A} (R : A -> A -> Prop) (f : A -> bool)
    (l : list A) :
  StronglySorted R l -> StronglySorted R (filter f l).
Proof.
  induction 1 as [|a l Hl IH Ha]; cbn [filter]; [constructor|].
  destruct (f a); [|exact IH].
  constructor; [exact IH|].
  apply Forall_forall. intros x Hx. apply filter_In in Hx as (Hx & _).
  rewrite Forall_forall in Ha. now apply Ha.
Qed.

Lemma forall_given {X} (o : option X) (P : X -> Prop) :
  (forall x, o = Some x -> P x)
  <-> match o with Some x => P x | None => True end.
Proof.
  destruct o as [x|]; split; intros H.
  - now apply H.
  - now intros y [= <-].
  - exact I.
  - discriminate.
Qed.

Section UsageHistoryProperties.

Variable to_python : string -> option datetime.

Lemma matches_cases (q : history_query) (row : AIUsageLog.t) :
  matches to_python q row <->
  match given (q_tool q) with
  | Some tool => AIUsageLog.ai_tool row = tool
  | None => True
  end
  /\ match given (q_type q) with
     | Some type => AIUsageLog.usage_type row = type
     | None => True
     end
  /\ match given (q_date_from q) with
     | Some text =>
       match to_python text with
       | Some since => since <= AIUsageLog.timestamp row
       | None => True
       end
     | None => True
     end
  /\ match given (q_date_to q) with
     | Some text =>
       match to_python text with
       | Some until => AIUsageLog.timestamp row <= until
       | None => True
       end
     | None => True
     end.
Proof.
  unfold matches. split.
  - intros (H1 & H2 & H3 & H4). split; [|split; [|split]].
    + now apply forall_given.
    + now apply forall_given.
    + destruct (given (q_date_from q)) as [text|] eqn:E; [|exact I].
      destruct (to_python text) as [since|] eqn:E'; [|exact I].
      now apply (H3 text since).
    + destruct (given (q_date_to q)) as [text|] eqn:E; [|exact I].
      destruct (to_python text) as [until|] eqn:E'; [|exact I].
      now apply (H4 text until).
  - intros (H1 & H2 & H3 & H4). split; [|split; [|split]].
    + now apply forall_given.
    + now apply forall_given.
    + intros text since E E'. now rewrite E, E' in H3.
    + intros text until E E'. now rewrite E, E' in H4.
Qed.

Lemma In_sorted_logs db u row :
  In row (sort_by newest_first (logs_of db u))
  <-> In row (usage_logs db) /\ AIUsageLog.user row = u.
Proof.
  split.
  - intros H. apply (Permutation_in _ (sort_by_perm newest_first _)) in H.
    unfold logs_of in H. apply filter_In in H as (Hin & Hu).
    apply Z.eqb_eq in Hu. now split.
  - intros (Hin & Hu).
    apply (Permutation_in _ (Permutation_sym (sort_by_perm newest_first _))).
    unfold logs_of. apply filter_In. split; [exact Hin | now apply Z.eqb_eq].
Qed.

(** X15. The history lists the requesting user's own events and nothing
    else: when the date parameters are accepted, the rows the view
    paginates are exactly the stored events of that user that match every
    filter given (an absent or empty parameter filters nothing), latest
    first, and the page it shows is at most 25 of them.  A date parameter
    that is given and refused makes the view fail, and that is the only
    way it fails. *)
Theorem usage_history_own_matching (db : Database) (request_user : Z)
    (q : history_query) :
  (history_logs to_python db request_user q = None <->
   (exists text, given (q_date_from q) = Some text /\ to_python text = None)
   \/ (exists text, given (q_date_to q) = Some text /\ to_python text = None))
  /\ (forall rows,
      history_logs to_python db request_user q = Some rows ->
      (forall row, In row rows <->
         In row (usage_logs db)
         /\ AIUsageLog.user row = request_user
         /\ matches to_python q row)
      /\ StronglySorted
           (fun a b => AIUsageLog.timestamp b <= AIUsageLog.timestamp a) rows
      /\ exists number shown,
           usage_history_view to_python db request_user q
           = Some (number, shown)
           /\ (List.length shown <= 25)%nat
           /\ forall row, In row shown -> In row rows).
Proof.
  assert (Hsorted : StronglySorted
            (fun a b => AIUsageLog.timestamp b <= AIUsageLog.timestamp a)
            (sort_by newest_first (logs_of db request_user))).
  { assert (H : StronglySorted (fun x y => newest_first x y = true)
                  (sort_by newest_first (logs_of db request_user)))
      by (apply sort_by_sorted;
          [apply newest_first_total | apply newest_first_trans]).
    induction H as [|a l Hl IH Ha]; constructor; [exact IH|].
    apply Forall_forall. intros x Hx. rewrite Forall_forall in Ha.
    apply Z.leb_le. now apply Ha. }
  split.
  - unfold history_logs. cbv zeta.
    destruct (given (q_date_from q)) as [tf|];
      [destruct (to_python tf) eqn:Hf|];
      (destruct (given (q_date_to q)) as [tt|];
       [destruct (to_python tt) eqn:Ht|]);
      split; try discriminate; try reflexivity;
      try (intros _; solve [left; eexists; split; [reflexivity|eassumption]
                           |right; eexists; split; [reflexivity|eassumption]]);
      intros [(text & [= <-] & H)|(text & [= <-] & H)]; congruence.
  - intros rows Hrows.
    assert (Hpage : exists number shown,
              usage_history_view to_python db request_user q
              = Some (number, shown)
              /\ (List.length shown <= 25)%nat
              /\ forall row, In row shown -> In row rows).
    { unfold usage_history_view. rewrite Hrows.
      exists (fst (get_page rows 25 (q_page q))),
             (snd (get_page rows 25 (q_page q))).
      split; [now destruct (get_page rows 25 (q_page q))|].
      unfold get_page. cbv zeta. cbn [snd]. split.
      - rewrite length_firstn.
        match goal with
        | |- context [if ?c <=? ?d then _ else _] =>
          destruct (Z.leb_spec c d)
        end; unfold count in *; lia.
      - intros row Hin. apply In_firstn in Hin.
        rewrite <- (firstn_skipn
                      (Z.to_nat
                         ((match q_page q with
                           | Some n =>
                             if (n <? 1) || (num_pages (count rows) 25 <? n)
                             then num_pages (count rows) 25 else n
                           | None => 1
                           end - 1) * 25)) rows).
        apply in_or_app. now right. }
    split; [|split; [|exact Hpage]].
    + intros row. rewrite matches_cases.
      pose proof (In_sorted_logs db request_user row) as Hs.
      unfold history_logs in Hrows. cbv zeta in Hrows.
      destruct (given (q_tool q)) as [tool|], (given (q_type q)) as [type|];
        (destruct (given (q_date_from q)) as [tf|];
         [destruct (to_python tf) as [since|]|]; try discriminate);
        (destruct (given (q_date_to q)) as [tt|];
         [destruct (to_python tt) as [until|]|]; try discriminate);
        injection Hrows as <-;
        rewrite ?filter_In, ?String.eqb_eq, ?Z.leb_le; tauto.
    + unfold history_logs in Hrows. cbv zeta in Hrows.
      destruct (given (q_tool q)) as [tool|], (given (q_type q)) as [type|];
        (destruct (given (q_date_from q)) as [tf|];
         [destruct (to_python tf) as [since|]|]; try discriminate);
        (destruct (given (q_date_to q)) as [tt|];
         [destruct (to_python tt) as [until|]|]; try discriminate);
        injection Hrows as <-;
        repeat apply StronglySorted_filter; exact Hsorted.
Qed.

End UsageHistoryProperties.

(** Page 3 of user 7's sixty events, unfiltered. *)
Lemma usage_history_own_matching_witness :
  exists number shown,
    usage_history_view (fun _ => None) db60 7 (no_filter (Some 3))
    = Some (number, shown)
    /\ (List.length shown <= 25)%nat
    /\ forall row, In row shown ->
         In row (sort_by newest_first (logs_of db60 7)).
Proof.
  assert (Hrows : history_logs (fun _ => None) db60 7 (no_filter (Some 3))
                  = Some (sort_by newest_first (logs_of db60 7))).
  { unfold history_logs, no_filter.
    cbn [given q_tool q_type q_date_from q_date_to]. reflexivity. }
  destruct (usage_history_own_matching (fun _ => None) db60 7
              (no_filter (Some 3))) as (_ & H).
  destruct (H _ Hrows) as (_ & _ & Hpage).
  exact Hpage.
Defined.

(** ** Registration *)


Section Registration.

Variable isoformat_date : date -> string.
Variable isoformat : datetime -> string.
Variable str_datetime : datetime -> string.


End Registration.


(** ** Dismissing twice *)

Lemma set_is_dismissed_twice (i : UserInsight.t) :
  UserInsight.set_is_dismissed (UserInsight.set_is_dismissed i true) true
  = UserInsight.set_is_dismissed i true.
Proof. reflexivity. Qed.

Lemma get_insight_after_dismiss (l : list UserInsight.t) (k u : Z)
    (insight : UserInsight.t) :
  find (fun i => has_pk k (UserInsight.id i) && (UserInsight.user i =? u)) l
  = Some insight ->
  find (fun i => has_pk k (UserInsight.id i) && (UserInsight.user i =? u))
       (map (fun row => if has_pk k (UserInsight.id row)
                        then UserInsight.set_is_dismissed insight true
                        else row) l)
  = Some (UserInsight.set_is_dismissed insight true).
Proof.
  intros Hfind.
  assert (Hd : has_pk k (UserInsight.id
                           (UserInsight.set_is_dismissed insight true))
               && (UserInsight.user
                     (UserInsight.set_is_dismissed insight true) =? u)
               = true).
  { apply find_some in Hfind as (_ & H). exact H. }
  induction l as [|x l IH]; cbn [find map] in *; [discriminate|].
  destruct (has_pk k (UserInsight.id x)) eqn:Hk.
  - now rewrite Hd.
  - cbn [andb] in Hfind. rewrite Hk. cbn [andb]. now apply IH.
Qed.

(** X17. Dismissing an insight that is already dismissed is accepted
    again, with the same redirect and not a 404, and changes nothing:
    the store after a second dismissal is the store after the first. *)
Theorem dismiss_twice (db : Database) (request_user insight_id : Z)
    (insight : UserInsight.t) :
  get_insight db insight_id request_user = Some insight ->
  let db' := fst (dismiss_insight_view db request_user insight_id) in
  dismiss_insight_view db' request_user insight_id
  = (db', HttpResponseRedirect "dashboard:insights").
Proof.
  intros Hg. cbv zeta. rewrite (dismiss_found _ _ _ _ Hg). cbn [fst].
  assert (Hg' : get_insight
                  (save_insight db insight_id
                     (UserInsight.set_is_dismissed insight true))
                  insight_id request_user
                = Some (UserInsight.set_is_dismissed insight true)).
  { unfold get_insight, save_insight. cbn [insights with_insights].
    now apply get_insight_after_dismiss. }
  rewrite (dismiss_found _ _ _ _ Hg'). f_equal.
  rewrite set_is_dismissed_twice.
  unfold save_insight, with_insights. cbn [insights users profiles policies
    usage_logs feedback]. f_equal.
  rewrite map_map. apply map_ext. intros row.
  destruct (has_pk insight_id (UserInsight.id row)) eqn:Hk; [|now rewrite Hk].
  destruct (find_get_insight _ _ _ _ Hg) as (_ & Hid & _).
  cbn [UserInsight.set_is_dismissed UserInsight.id].
  now rewrite (proj2 (has_pk_eq _ _) Hid).
Qed.

Lemma dismiss_twice_witness :
  dismiss_insight_view (fst (dismiss_insight_view db_ab 7 1)) 7 1
  = (fst (dismiss_insight_view db_ab 7 1),
     HttpResponseRedirect "dashboard:insights").
Proof.
  exact (dismiss_twice db_ab 7 1 insight_a eq_refl).
Defined.
